(** * my-cli: a command-line lookup of one GitHub user profile

    Shallow embedding of the two Go packages of the repository,

    - [cmd]    (cmd/root.go): the command [rootCmd], [Execute], [init],
                [initConfig];
    - [github] (github/api.go): the record [GitHubUser] and [GetUser];

    together with models of the library calls they make: [fmt] printing,
    [os.Exit], [net/http.Get], [encoding/json]'s stream decoder and the
    flag lookup of the command framework.

    Go strings are byte strings; they are modelled by [string], whose
    characters are the bytes. Text with accents is therefore its UTF-8
    encoding, as in the Go source. Go's [int] is the 64-bit signed integer of
    the usual platforms and is modelled by [Z] with the range check written
    out where the decoder performs it. *)

From Stdlib Require Import String Ascii List ZArith NArith Bool Lia DecimalString.
From Stdlib Require DecimalFacts DecimalPos.
Import ListNotations.
Open Scope string_scope.

(** ** Bytes *)

Module Chars.

Definition code (c : ascii) : N := N_of_ascii c.

Definition between (lo hi c : ascii) : bool :=
  ((code lo <=? code c) && (code c <=? code hi))%N.

Definition isDigit (c : ascii) : bool := between "0" "9" c.

Definition isHex (c : ascii) : bool :=
  isDigit c || between "a" "f" c || between "A" "F" c.

Definition lowerhex (n : N) : ascii :=
  (if n <? 10 then ascii_of_N (48 + n) else ascii_of_N (87 + n))%N.

Definition upperhex (n : N) : ascii :=
  (if n <? 10 then ascii_of_N (48 + n) else ascii_of_N (55 + n))%N.

(** Value of a hexadecimal digit (0 for other bytes). *)
Definition hexval (c : ascii) : N :=
  (if isDigit c then code c - 48
   else if between "a" "f" c then code c - 87
   else if between "A" "F" c then code c - 55
   else 0)%N.

Definition nl : string := String "010" "".

(** The double-quote byte. *)
Definition dquote : ascii := "034".

End Chars.

(** ** encoding/json: errors *)

Module json.

Import Chars.

(** The error values [Decoder.Decode] can return, with the fields their
    [Error] method prints. ([SyntaxError] and [UnmarshalTypeError] also
    carry an input offset in Go; no code of this program reads it.) *)
Inductive error : Type :=
| io_EOF
| io_ErrUnexpectedEOF
| SyntaxError (msg : string)
| UnmarshalTypeError (Value Struct Field Type_ : string).

Definition Error (e : error) : string :=
  match e with
  | io_EOF => "EOF"
  | io_ErrUnexpectedEOF => "unexpected EOF"
  | SyntaxError msg => msg
  | UnmarshalTypeError v s f t =>
      if (negb (s =? "") || negb (f =? ""))%bool
      then "json: cannot unmarshal " ++ v ++ " into Go struct field "
           ++ s ++ "." ++ f ++ " of type " ++ t
      else "json: cannot unmarshal " ++ v ++ " into Go value of type " ++ t
  end.

(** [quoteChar]: how the scanner shows the offending byte; it is
    [strconv.Quote] of the one-rune string, with single quotes. *)
Definition quoteChar (c : ascii) : string :=
  let n := code c in
  let q (s : string) := "'" ++ s ++ "'" in
  if (c =? "'")%char then q "\'"
  else if (c =? dquote)%char then q (String c "")
  else if (c =? "\")%char then q "\\"
  else if ((32 <=? n) && (n <=? 126))%N then q (String c "")
  else if ((161 <=? n) && negb (n =? 173))%N then
    (* a printable Latin-1 rune, shown as its two-byte UTF-8 form *)
    q (String (ascii_of_N (192 + n / 64)%N) (String (ascii_of_N (128 + n mod 64)%N) ""))
  else if (n =? 7)%N then q "\a"
  else if (n =? 8)%N then q "\b"
  else if (n =? 12)%N then q "\f"
  else if (n =? 10)%N then q "\n"
  else if (n =? 13)%N then q "\r"
  else if (n =? 9)%N then q "\t"
  else if (n =? 11)%N then q "\v"
  else if ((n <? 32) || (n =? 127))%N then
    q ("\x" ++ String (lowerhex (n / 16)%N) (String (lowerhex (n mod 16)%N) ""))
  else
    q ("\u00" ++ String (lowerhex (n / 16)%N) (String (lowerhex (n mod 16)%N) "")).

(** ** encoding/json: the scanner (scanner.go)

    The scanner is a state machine fed one byte at a time. [stepFn] names
    its step functions, [parseState] the entries of its stack of open
    composite values, [opcode] what a step reports. *)

Inductive stepFn : Type :=
| stateBeginValueOrEmpty | stateBeginValue
| stateBeginStringOrEmpty | stateBeginString
| stateEndValue | stateEndTop
| stateInString | stateInStringEsc
| stateInStringEscU | stateInStringEscU1 | stateInStringEscU12 | stateInStringEscU123
| stateNeg | state1 | state0 | stateDot | stateDot0 | stateE | stateESign | stateE0
| stateT | stateTr | stateTru
| stateF | stateFa | stateFal | stateFals
| stateN | stateNu | stateNul
| stateError.

Inductive parseState : Type := parseObjectKey | parseObjectValue | parseArrayValue.

Inductive opcode : Type :=
| scanContinue | scanBeginLiteral
| scanBeginObject | scanObjectKey | scanObjectValue | scanEndObject
| scanBeginArray | scanArrayValue | scanEndArray
| scanSkipSpace | scanEnd | scanError.

(** The stack is kept with its top first. *)
Record scanner : Type := mkScanner {
  step : stepFn;
  parseStack : list parseState;
  err : option error
}.

Definition maxNestingDepth : N := 10000%N.

Definition reset : scanner :=
  {| step := stateBeginValue; parseStack := []; err := None |}.

Definition isSpace (c : ascii) : bool :=
  ((c =? " ") || (c =? "009") || (c =? "013") || (c =? "010"))%char.

Definition goto (s : scanner) (st : stepFn) (op : opcode) : scanner * opcode :=
  ({| step := st; parseStack := parseStack s; err := err s |}, op).

Definition scan_error (s : scanner) (c : ascii) (context : string) : scanner * opcode :=
  ({| step := stateError; parseStack := parseStack s;
      err := Some (SyntaxError ("invalid character " ++ quoteChar c ++ " " ++ context)) |},
   scanError).

Definition pushParseState (s : scanner) (c : ascii) (newParseState : parseState)
    (next : stepFn) (successState : opcode) : scanner * opcode :=
  let s' := {| step := next; parseStack := newParseState :: parseStack s; err := err s |} in
  if (N.of_nat (length (parseStack s')) <=? maxNestingDepth)%N
  then (s', successState)
  else scan_error s' c "exceeded max depth".

Definition do_stateEndTop (s : scanner) (c : ascii) : scanner * opcode :=
  if isSpace c then (s, scanEnd)
  else (fst (scan_error s c "after top-level value"), scanEnd).

Definition do_stateEndValue (s : scanner) (c : ascii) : scanner * opcode :=
  match parseStack s with
  | [] => do_stateEndTop {| step := stateEndTop; parseStack := []; err := err s |} c
  | ps :: below =>
      if isSpace c then goto s stateEndValue scanSkipSpace
      else
        match ps with
        | parseObjectKey =>
            if (c =? ":")%char
            then ({| step := stateBeginValue; parseStack := parseObjectValue :: below;
                     err := err s |}, scanObjectKey)
            else scan_error s c "after object key"
        | parseObjectValue =>
            if (c =? ",")%char
            then ({| step := stateBeginString; parseStack := parseObjectKey :: below;
                     err := err s |}, scanObjectValue)
            else if (c =? "}")%char
            then ({| step := match below with [] => stateEndTop | _ => stateEndValue end;
                     parseStack := below; err := err s |}, scanEndObject)
            else scan_error s c "after object key:value pair"
        | parseArrayValue =>
            if (c =? ",")%char
            then goto s stateBeginValue scanArrayValue
            else if (c =? "]")%char
            then ({| step := match below with [] => stateEndTop | _ => stateEndValue end;
                     parseStack := below; err := err s |}, scanEndArray)
            else scan_error s c "after array element"
        end
  end.

Definition do_stateBeginValue (s : scanner) (c : ascii) : scanner * opcode :=
  if isSpace c then (s, scanSkipSpace)
  else if (c =? "{")%char
  then pushParseState s c parseObjectKey stateBeginStringOrEmpty scanBeginObject
  else if (c =? "[")%char
  then pushParseState s c parseArrayValue stateBeginValueOrEmpty scanBeginArray
  else if (c =? dquote)%char then goto s stateInString scanBeginLiteral
  else if (c =? "-")%char then goto s stateNeg scanBeginLiteral
  else if (c =? "0")%char then goto s state0 scanBeginLiteral
  else if (c =? "t")%char then goto s stateT scanBeginLiteral
  else if (c =? "f")%char then goto s stateF scanBeginLiteral
  else if (c =? "n")%char then goto s stateN scanBeginLiteral
  else if between "1" "9" c then goto s state1 scanBeginLiteral
  else scan_error s c "looking for beginning of value".

Definition do_stateBeginString (s : scanner) (c : ascii) : scanner * opcode :=
  if isSpace c then (s, scanSkipSpace)
  else if (c =? dquote)%char then goto s stateInString scanBeginLiteral
  else scan_error s c "looking for beginning of object key string".

Definition do_state0 (s : scanner) (c : ascii) : scanner * opcode :=
  if (c =? ".")%char then goto s stateDot scanContinue
  else if ((c =? "e") || (c =? "E"))%char then goto s stateE scanContinue
  else do_stateEndValue s c.

Definition do_stateESign (s : scanner) (c : ascii) : scanner * opcode :=
  if isDigit c then goto s stateE0 scanContinue
  else scan_error s c "in exponent of numeric literal".

(** One letter of a keyword: [expect] or an error naming the keyword. *)
Definition literal_step (s : scanner) (c expect : ascii) (next : stepFn)
    (word : string) : scanner * opcode :=
  if (c =? expect)%char then goto s next scanContinue
  else scan_error s c ("in literal " ++ word ++ " (expecting '" ++ String expect "" ++ "')").

Definition hex_step (s : scanner) (c : ascii) (next : stepFn) : scanner * opcode :=
  if isHex c then goto s next scanContinue
  else scan_error s c "in \u hexadecimal character escape".

(** [s.step(s, c)]. *)
Definition scan_step (s : scanner) (c : ascii) : scanner * opcode :=
  match step s with
  | stateBeginValueOrEmpty =>
      if isSpace c then (s, scanSkipSpace)
      else if (c =? "]")%char then do_stateEndValue s c
      else do_stateBeginValue s c
  | stateBeginValue => do_stateBeginValue s c
  | stateBeginStringOrEmpty =>
      if isSpace c then (s, scanSkipSpace)
      else if (c =? "}")%char then
        do_stateEndValue {| step := step s;
                            parseStack := parseObjectValue :: tl (parseStack s);
                            err := err s |} c
      else do_stateBeginString s c
  | stateBeginString => do_stateBeginString s c
  | stateEndValue => do_stateEndValue s c
  | stateEndTop => do_stateEndTop s c
  | stateInString =>
      if (c =? dquote)%char then goto s stateEndValue scanContinue
      else if (c =? "\")%char then goto s stateInStringEsc scanContinue
      else if (code c <? 32)%N then scan_error s c "in string literal"
      else (s, scanContinue)
  | stateInStringEsc =>
      if ((c =? "b") || (c =? "f") || (c =? "n") || (c =? "r") || (c =? "t")
          || (c =? "\") || (c =? "/") || (c =? dquote))%char
      then goto s stateInString scanContinue
      else if (c =? "u")%char then goto s stateInStringEscU scanContinue
      else scan_error s c "in string escape code"
  | stateInStringEscU => hex_step s c stateInStringEscU1
  | stateInStringEscU1 => hex_step s c stateInStringEscU12
  | stateInStringEscU12 => hex_step s c stateInStringEscU123
  | stateInStringEscU123 => hex_step s c stateInString
  | stateNeg =>
      if (c =? "0")%char then goto s state0 scanContinue
      else if between "1" "9" c then goto s state1 scanContinue
      else scan_error s c "in numeric literal"
  | state1 =>
      if isDigit c then goto s state1 scanContinue
      else do_state0 s c
  | state0 => do_state0 s c
  | stateDot =>
      if isDigit c then goto s stateDot0 scanContinue
      else scan_error s c "after decimal point in numeric literal"
  | stateDot0 =>
      if isDigit c then (s, scanContinue)
      else if ((c =? "e") || (c =? "E"))%char then goto s stateE scanContinue
      else do_stateEndValue s c
  | stateE =>
      if ((c =? "+") || (c =? "-"))%char then goto s stateESign scanContinue
      else do_stateESign s c
  | stateESign => do_stateESign s c
  | stateE0 =>
      if isDigit c then (s, scanContinue)
      else do_stateEndValue s c
  | stateT => literal_step s c "r" stateTr "true"
  | stateTr => literal_step s c "u" stateTru "true"
  | stateTru => literal_step s c "e" stateEndValue "true"
  | stateF => literal_step s c "a" stateFa "false"
  | stateFa => literal_step s c "l" stateFal "false"
  | stateFal => literal_step s c "s" stateFals "false"
  | stateFals => literal_step s c "e" stateEndValue "false"
  | stateN => literal_step s c "u" stateNu "null"
  | stateNu => literal_step s c "l" stateNul "null"
  | stateNul => literal_step s c "l" stateEndValue "null"
  | stateError => (s, scanError)
  end.

(** ** encoding/json: values and string literals (decode.go)

    The text of a number is kept as written: what it becomes depends on
    the Go type it is stored into. *)

#[local] Set Warnings "-register-all".

Inductive value : Type :=
| Null
| Bool (b : bool)
| Number (literal : string)
| Str (s : string)
| Array (elems : list value)
| Object (members : list (string * value)).

Definition RuneError : N := 0xFFFD%N.

Definition utf8_EncodeRune (r : N) : string :=
  let b (n : N) := ascii_of_N n in
  (if r <? 0x80 then String (b r) ""
   else if r <? 0x800 then String (b (0xC0 + r / 64)) (String (b (0x80 + r mod 64)) "")
   else if ((0xD800 <=? r) && (r <? 0xE000)) || (0x10FFFF <? r)
   then String (b 0xEF) (String (b 0xBF) (String (b 0xBD) ""))
   else if r <? 0x10000
   then String (b (0xE0 + r / 4096))
          (String (b (0x80 + (r / 64) mod 64)) (String (b (0x80 + r mod 64)) ""))
   else String (b (0xF0 + r / 262144))
          (String (b (0x80 + (r / 4096) mod 64))
             (String (b (0x80 + (r / 64) mod 64)) (String (b (0x80 + r mod 64)) ""))))%N.

(** Are the first [k] bytes of [s] continuation bytes, the first of them
    within [lo..hi]? *)
Fixpoint continuation (lo hi : N) (k : nat) (s : string) : bool :=
  match k, s with
  | O, _ => true
  | S k', String c rest =>
      ((lo <=? code c) && (code c <=? hi))%N && continuation 0x80%N 0xBF%N k' rest
  | S _, EmptyString => false
  end.

(** [utf8.DecodeRune] on a lead byte [c >= 0x80] followed by [rest]: the
    number of continuation bytes of a well-formed encoding, [None] where
    Go answers [RuneError] with width 1. *)
Definition utf8_tail (c : ascii) (rest : string) : option nat :=
  let n := code c in
  let accept (lo hi : N) (k : nat) := if continuation lo hi k rest then Some k else None in
  (if (0xC2 <=? n) && (n <=? 0xDF) then accept 0x80 0xBF 1%nat
   else if n =? 0xE0 then accept 0xA0 0xBF 2%nat
   else if n =? 0xED then accept 0x80 0x9F 2%nat
   else if (0xE1 <=? n) && (n <=? 0xEF) then accept 0x80 0xBF 2%nat
   else if n =? 0xF0 then accept 0x90 0xBF 3%nat
   else if (0xF1 <=? n) && (n <=? 0xF3) then accept 0x80 0xBF 3%nat
   else if n =? 0xF4 then accept 0x80 0x8F 3%nat
   else None)%N.

Definition getu4 (h1 h2 h3 h4 : ascii) : N :=
  (((hexval h1 * 16 + hexval h2) * 16 + hexval h3) * 16 + hexval h4)%N.

Definition utf16_IsSurrogate (r : N) : bool := ((0xD800 <=? r) && (r <? 0xE000))%N.

Definition utf16_DecodeRune (r1 r2 : N) : N :=
  if ((0xD800 <=? r1) && (r1 <? 0xDC00) && (0xDC00 <=? r2) && (r2 <? 0xE000))%N
  then ((r1 - 0xD800) * 1024 + (r2 - 0xDC00) + 0x10000)%N
  else RuneError.

Definition escaped (e : ascii) : ascii :=
  if (e =? "b")%char then "008"
  else if (e =? "f")%char then "012"
  else if (e =? "n")%char then "010"
  else if (e =? "r")%char then "013"
  else if (e =? "t")%char then "009"
  else e.

(** [unquoteBytes] on the inside of a string literal the scanner has
    accepted: escapes are replaced, a surrogate pair of [\u] escapes
    becomes one rune, a lone surrogate and every byte that is not part of
    well-formed UTF-8 become U+FFFD. [copy] counts continuation bytes
    still to be copied. *)
Fixpoint unquote_from (copy : nat) (s : string) {struct s} : string :=
  match s with
  | EmptyString => ""
  | String c rest =>
      match copy with
      | S k => String c (unquote_from k rest)
      | O =>
          if (c =? "\")%char then
            match rest with
            | EmptyString => ""
            | String e rest1 =>
                if (e =? "u")%char then
                  match rest1 with
                  | String h1 (String h2 (String h3 (String h4 rest4))) =>
                      let rr := getu4 h1 h2 h3 h4 in
                      if utf16_IsSurrogate rr then
                        match rest4 with
                        | String b (String u (String g1 (String g2 (String g3 (String g4 rest10))))) =>
                            let dec := utf16_DecodeRune rr (getu4 g1 g2 g3 g4) in
                            if ((b =? "\") && (u =? "u"))%char
                               && isHex g1 && isHex g2 && isHex g3 && isHex g4
                               && negb (dec =? RuneError)%N
                            then utf8_EncodeRune dec ++ unquote_from 0 rest10
                            else utf8_EncodeRune RuneError ++ unquote_from 0 rest4
                        | _ => utf8_EncodeRune RuneError ++ unquote_from 0 rest4
                        end
                      else utf8_EncodeRune rr ++ unquote_from 0 rest4
                  | _ => ""
                  end
                else String (escaped e) (unquote_from 0 rest1)
            end
          else if (code c <? 0x80)%N then String c (unquote_from 0 rest)
          else
            match utf8_tail c rest with
            | Some k => String c (unquote_from k rest)
            | None => utf8_EncodeRune RuneError ++ unquote_from 0 rest
            end
      end
  end.

(** The literal without its first and last byte (the quotes). *)
Fixpoint drop_last (s : string) : string :=
  match s with
  | EmptyString => ""
  | String c EmptyString => ""
  | String c rest => String c (drop_last rest)
  end.

Definition unquote (literal : string) : string :=
  match literal with
  | EmptyString => ""
  | String _ rest => unquote_from 0 (drop_last rest)
  end.

(** The value of a literal, chosen by its first byte as [literalStore]
    does. *)
Definition literal_value (literal : string) : value :=
  match literal with
  | EmptyString => Null
  | String c _ =>
      if (c =? "n")%char then Null
      else if (c =? "t")%char then Bool true
      else if (c =? "f")%char then Bool false
      else if (c =? dquote)%char then Str (unquote literal)
      else Number literal
  end.

(** ** encoding/json: reading one value from the stream (stream.go)

    [Decoder.readValue] feeds the buffered bytes to the scanner until it
    reports the end of the top-level value; [decodeState] then walks the
    same bytes again, scanning them a second time, to build what is
    stored. The model does both in one pass: [builder] is the part of
    [decodeState] that follows the opcodes, with the composite values
    still open on [frames], the literal being read in [lit] and the last
    finished value in [val]. *)

Inductive frame : Type :=
| InObject (members : list (string * value)) (key : option string)
| InArray (elems : list value).

Record builder : Type := mkBuilder {
  frames : list frame;
  lit : option string;
  val : option value
}.

Definition empty_builder : builder := {| frames := []; lit := None; val := None |}.

Definition end_literal (b : builder) : builder :=
  match lit b with
  | Some l => {| frames := frames b; lit := None; val := Some (literal_value l) |}
  | None => b
  end.

Definition add_member (members : list (string * value)) (key : option string)
    (v : option value) : list (string * value) :=
  match key, v with
  | Some k, Some x => members ++ [(k, x)]
  | _, _ => members
  end.

Definition add_elem (elems : list value) (v : option value) : list value :=
  match v with
  | Some x => elems ++ [x]
  | None => elems
  end.

Definition build (b : builder) (c : ascii) (op : opcode) : builder :=
  match op with
  | scanContinue =>
      {| frames := frames b;
         lit := option_map (fun l => l ++ String c "") (lit b);
         val := val b |}
  | scanBeginLiteral => {| frames := frames b; lit := Some (String c ""); val := None |}
  | scanBeginObject => {| frames := InObject [] None :: frames b; lit := None; val := None |}
  | scanBeginArray => {| frames := InArray [] :: frames b; lit := None; val := None |}
  | scanObjectKey =>
      let b := end_literal b in
      match frames b, val b with
      | InObject ms _ :: below, Some (Str k) =>
          {| frames := InObject ms (Some k) :: below; lit := None; val := None |}
      | _, _ => b
      end
  | scanObjectValue =>
      let b := end_literal b in
      match frames b with
      | InObject ms key :: below =>
          {| frames := InObject (add_member ms key (val b)) None :: below;
             lit := None; val := None |}
      | _ => b
      end
  | scanEndObject =>
      let b := end_literal b in
      match frames b with
      | InObject ms key :: below =>
          {| frames := below; lit := None;
             val := Some (Object (add_member ms key (val b))) |}
      | _ => b
      end
  | scanArrayValue =>
      let b := end_literal b in
      match frames b with
      | InArray es :: below =>
          {| frames := InArray (add_elem es (val b)) :: below; lit := None; val := None |}
      | _ => b
      end
  | scanEndArray =>
      let b := end_literal b in
      match frames b with
      | InArray es :: below =>
          {| frames := below; lit := None; val := Some (Array (add_elem es (val b))) |}
      | _ => b
      end
  | scanSkipSpace | scanEnd | scanError => end_literal b
  end.

Definition finished (b : builder) : value :=
  match val (end_literal b) with
  | Some v => v
  | None => Null
  end.

Definition is_scanEnd (op : opcode) : bool :=
  match op with scanEnd => true | _ => false end.

(** The loop of [readValue] over the bytes still unread, [seen] telling
    whether a byte that is not white space has been buffered (Go's
    [nonSpace(dec.buf)]). At the end of the input Go asks the scanner
    whether a space would end the value and otherwise fails, with
    [io.ErrUnexpectedEOF] when something was read and with [io.EOF] when
    nothing but white space was. *)
Fixpoint readValue_from (s : scanner) (b : builder) (seen : bool) (input : string)
    : error + value :=
  match input with
  | EmptyString =>
      if is_scanEnd (snd (scan_step s " ")) then inr (finished b)
      else if seen then inl io_ErrUnexpectedEOF
      else inl io_EOF
  | String c rest =>
      let '(s', op) := scan_step s c in
      match op with
      | scanEnd => inr (finished b)
      | scanEndObject | scanEndArray =>
          if is_scanEnd (snd (do_stateEndValue s' " "))
          then inr (finished (build b c op))
          else readValue_from s' (build b c op) true rest
      | scanError =>
          match err s' with
          | Some e => inl e
          | None => inl (SyntaxError "")
          end
      | _ => readValue_from s' (build b c op) (seen || negb (isSpace c)) rest
      end
  end.

Definition readValue (body : string) : error + value :=
  readValue_from reset empty_builder false body.

(** ** encoding/json: storing into Go values (decode.go) *)

(** [strconv.ParseInt s 10 64]: an optional sign, then decimal digits
    only, and a result that fits 64 bits. *)
Fixpoint digits_value (acc : Z) (s : string) : option Z :=
  match s with
  | EmptyString => Some acc
  | String c rest =>
      if isDigit c then digits_value (acc * 10 + Z.of_N (code c - 48)) rest else None
  end.

Definition ParseInt (s : string) : option Z :=
  let '(neg, digits) :=
    match s with
    | String c rest =>
        if (c =? "-")%char then (true, rest)
        else if (c =? "+")%char then (false, rest)
        else (false, s)
    | EmptyString => (false, s)
    end in
  match digits with
  | EmptyString => None
  | _ =>
      match digits_value 0 digits with
      | Some n =>
          let v := (if neg then - n else n)%Z in
          if ((- 2 ^ 63 <=? v) && (v <=? 2 ^ 63 - 1))%Z then Some v else None
      | None => None
      end
  end.

(** The JSON kind named in an [UnmarshalTypeError]. *)
Definition kind_name (v : value) : string :=
  match v with
  | Null => "null"
  | Bool _ => "bool"
  | Number _ => "number"
  | Str _ => "string"
  | Array _ => "array"
  | Object _ => "object"
  end.

(** Storing a JSON value into a Go [string]: a string is stored, [null]
    leaves the destination as it is, anything else is a type error (and
    the destination is left as it is). [Struct] and [Field] are the error
    context of the enclosing struct field. *)
Definition store_string (Struct Field : string) (v : value) (old : string)
    : string * option error :=
  match v with
  | Str s => (s, None)
  | Null => (old, None)
  | _ => (old, Some (UnmarshalTypeError (kind_name v) Struct Field "string"))
  end.

(** Storing a JSON value into a Go [int]. *)
Definition store_int (Struct Field : string) (v : value) (old : Z)
    : Z * option error :=
  match v with
  | Number s =>
      match ParseInt s with
      | Some n => (n, None)
      | None => (old, Some (UnmarshalTypeError ("number " ++ s) Struct Field "int"))
      end
  | Null => (old, None)
  | _ => (old, Some (UnmarshalTypeError (kind_name v) Struct Field "int"))
  end.

(** [saveError]: the first error of a decode is the one reported. *)
Definition saveError (saved e : option error) : option error :=
  match saved with
  | Some _ => saved
  | None => e
  end.

(** [foldName]: the key under which names are compared when no field has
    exactly the key's name. ASCII letters are folded to upper case, and so
    are the two other runes whose case folding is an ASCII letter: U+017F
    (long s) and U+212A (Kelvin sign). Go folds every other rune to the
    least rune of its class, which is never ASCII; they are left as they
    are here, which gives the same comparisons with the ASCII names of
    this program's fields. *)
Fixpoint foldName (s : string) : string :=
  match s with
  | EmptyString => ""
  | String c rest =>
      if between "a" "z" c then String (ascii_of_N (code c - 32)) (foldName rest)
      else
        match rest with
        | String d rest1 =>
            if ((code c =? 0xC5) && (code d =? 0xBF))%N then String "S" (foldName rest1)
            else
              match rest1 with
              | String e rest2 =>
                  if ((code c =? 0xE2) && (code d =? 0x84) && (code e =? 0xAA))%N
                  then String "K" (foldName rest2)
                  else String c (foldName rest)
              | EmptyString => String c (foldName rest)
              end
        | EmptyString => String c (foldName rest)
        end
  end.

End json.

(** ** The process and the world around it

    What the program does to the outside is kept as a trace of events, in
    order. What the outside does to the program is the answer [network]
    gives to the [n]-th call of [http.Get], and the environment variables.
    [viper_automaticEnv] is the one setting of the global configuration
    registry the program touches. *)

Module proc.

(** What [http.Get] returns: an error of the transport (a URL that does
    not parse, DNS, connection, timeout), shown here by its message, or a
    response of any status with a body to read and to close. [Body] is
    the bytes of the body up to the end of the stream; a read that fails
    midway is not part of the model. *)
Inductive HttpResult : Type :=
| TransportError (msg : string)
| Response (StatusCode : Z) (Body : string).

Inductive event : Type :=
| Stdout (text : string)
| Stderr (text : string)
| HttpGet (url : string)
| BodyOpened (url : string)
| BodyClosed (url : string).

Record World : Type := mkWorld {
  network : nat -> string -> HttpResult;
  environ : list (string * string);
  viper_automaticEnv : bool;
  trace : list event
}.

Definition with_trace (w : World) (t : list event) : World :=
  {| network := network w; environ := environ w;
     viper_automaticEnv := viper_automaticEnv w; trace := t |}.

(** A call either returns or ends the process with an exit code. *)
Inductive outcome (A : Type) : Type :=
| Return (a : A)
| Exit (code : Z).
Arguments Return {A} a.
Arguments Exit {A} code.

Definition M (A : Type) : Type := World -> outcome A * World.

Definition ret {A} (a : A) : M A := fun w => (Return a, w).

Definition bind {A B} (m : M A) (k : A -> M B) : M B :=
  fun w =>
    match m w with
    | (Return a, w') => k a w'
    | (Exit code, w') => (Exit code, w')
    end.

Definition emit (e : event) : M unit :=
  fun w => (Return tt, with_trace w (trace w ++ [e])).

(** [defer d] followed by the rest of the function body: [d] runs when
    the body returns. It does not run when the body ends the process:
    [os.Exit] runs no deferred call. *)
Definition defer {A} (d : M unit) (body : M A) : M A :=
  bind body (fun a => bind d (fun _ => ret a)).

(** Views of a trace. *)
Fixpoint stdout (t : list event) : string :=
  match t with
  | [] => ""
  | Stdout s :: rest => s ++ stdout rest
  | _ :: rest => stdout rest
  end.

Fixpoint stderr (t : list event) : string :=
  match t with
  | [] => ""
  | Stderr s :: rest => s ++ stderr rest
  | _ :: rest => stderr rest
  end.

(** The URLs [http.Get] was called with. *)
Fixpoint requests (t : list event) : list string :=
  match t with
  | [] => []
  | HttpGet url :: rest => url :: requests rest
  | _ :: rest => requests rest
  end.

(** The number of response bodies open: opened and not closed since. *)
Fixpoint open_bodies (t : list event) : Z :=
  match t with
  | [] => 0
  | BodyOpened _ :: rest => 1 + open_bodies rest
  | BodyClosed _ :: rest => open_bodies rest - 1
  | _ :: rest => open_bodies rest
  end.

End proc.

Declare Scope proc_scope.
Delimit Scope proc_scope with proc.
Notation "x <- m ;; k" := (proc.bind m (fun x => k))
  (at level 61, m at next level, right associativity) : proc_scope.
Notation "m ;; k" := (proc.bind m (fun _ => k))
  (at level 61, right associativity) : proc_scope.

(** ** Package fmt *)

Module fmt.

Import Chars proc.

Inductive operand : Type :=
| str (s : string)
| int (n : Z).

(** Decimal text of an [int] (the verb [%d]). *)
Definition Itoa (n : Z) : string := NilZero.string_of_int (Z.to_int n).

(** An operand under [%v]. *)
Definition show (a : operand) : string :=
  match a with
  | str s => s
  | int n => Itoa n
  end.

Definition type_name (a : operand) : string :=
  match a with
  | str _ => "string"
  | int _ => "int"
  end.

Fixpoint join (sep : string) (l : list string) : string :=
  match l with
  | [] => ""
  | [x] => x
  | x :: rest => x ++ sep ++ join sep rest
  end.

(** One verb applied to one operand. The verbs of this program are [%s]
    on a string and [%d] on an int; [%v] is the default form of either.
    Any other pairing is shown the way Go shows a verb that does not fit
    its operand; verbs with a meaning of their own on these types ([%x],
    [%q], ...), flags and widths are outside the model. *)
Definition verb (v : ascii) (a : operand) : string :=
  match a with
  | str s =>
      if ((v =? "s") || (v =? "v"))%char then s
      else "%!" ++ String v "" ++ "(string=" ++ s ++ ")"
  | int n =>
      if ((v =? "d") || (v =? "v"))%char then Itoa n
      else "%!" ++ String v "" ++ "(int=" ++ Itoa n ++ ")"
  end.

Fixpoint Sprintf (format : string) (a : list operand) : string :=
  match format with
  | EmptyString =>
      match a with
      | [] => ""
      | _ => "%!(EXTRA " ++ join ", " (map (fun x => type_name x ++ "=" ++ show x) a) ++ ")"
      end
  | String c rest =>
      if (c =? "%")%char then
        match rest with
        | EmptyString => "%!(NOVERB)"
        | String v rest' =>
            if (v =? "%")%char then String "%" (Sprintf rest' a)
            else
              match a with
              | [] => "%!" ++ String v "" ++ "(MISSING)" ++ Sprintf rest' []
              | x :: a' => verb v x ++ Sprintf rest' a'
              end
        end
      else String c (Sprintf rest a)
  end.

Definition Printf (format : string) (a : list operand) : M unit :=
  emit (Stdout (Sprintf format a)).

(** [Println]: the operands in their default form, a space between each
    two, a newline at the end, on standard output. An [error] operand is
    passed as the text of its [Error] method, which is what is printed. *)
Definition Sprintln (a : list operand) : string := join " " (map show a) ++ nl.

Definition Println (a : list operand) : M unit :=
  emit (Stdout (Sprintln a)).

End fmt.

(** ** Package os *)

Module os.

Import proc.

Definition Exit {A} (code : Z) : M A := fun w => (proc.Exit code, w).

End os.

(** ** Package net/http *)

Module http.

Import proc.

(** The part of [*http.Response] the program uses. *)
Record Response : Type := mkResponse {
  StatusCode : Z;
  Body : string;
  RequestURL : string
}.

(** [http.Get url]: the answer of the network to this call, which is the
    call number [length (requests trace)] of the process. A response
    comes with its body open. *)
Definition Get (url : string) : M (Response + string) :=
  fun w =>
    match network w (length (requests (trace w))) url with
    | TransportError msg =>
        (Return (inr msg), with_trace w (trace w ++ [HttpGet url]))
    | proc.Response code body =>
        (Return (inl {| StatusCode := code; Body := body; RequestURL := url |}),
         with_trace w (trace w ++ [HttpGet url; BodyOpened url]))
    end.

(** [resp.Body.Close()]. *)
Definition Body_Close (resp : Response) : M unit :=
  emit (BodyClosed (RequestURL resp)).

End http.

(** ** Package net/url

    No code of the repository calls this package. [PathEscape] is what the
    specification means by a path-encoded identifier; it is here to be
    compared with the URL [GetUser] builds. *)

Module url.

Import Chars.

(** [shouldEscape c encodePathSegment]: letters, digits and the marks
    [-_.~] stay, and so do the reserved characters [$&+:=@]; every other
    byte is escaped. *)
Definition shouldEscape (c : ascii) : bool :=
  negb (between "a" "z" c || between "A" "Z" c || isDigit c
        || (c =? "-")%char || (c =? "_")%char || (c =? ".")%char || (c =? "~")%char
        || (c =? "$")%char || (c =? "&")%char || (c =? "+")%char
        || (c =? ":")%char || (c =? "=")%char || (c =? "@")%char).

Fixpoint PathEscape (s : string) : string :=
  match s with
  | EmptyString => ""
  | String c rest =>
      if shouldEscape c
      then String "%" (String (upperhex (code c / 16)%N)
                         (String (upperhex (code c mod 16)%N) (PathEscape rest)))
      else String c (PathEscape rest)
  end.

(** No byte of [s] needs escaping. *)
Fixpoint plain (s : string) : bool :=
  match s with
  | EmptyString => true
  | String c rest => negb (shouldEscape c) && plain rest
  end.

End url.

(** ** Package github (github/api.go) *)

Module github.

(** [[
    type GitHubUser struct {
      Login     string `json:"login"`
      Name      string `json:"name"`
      Followers int    `json:"followers"`
      Following int    `json:"following"`
    }
    ]] *)
Record GitHubUser : Type := mkGitHubUser {
  Login : string;
  Name : string;
  Followers : Z;
  Following : Z
}.

(** [var gitHubUser GitHubUser]: the zero value. *)
Definition zero : GitHubUser :=
  {| Login := ""; Name := ""; Followers := 0; Following := 0 |}.

(** The fields as the decoder sees them through reflection, each with
    the name of its [json] tag. *)
Inductive field : Type := fLogin | fName | fFollowers | fFollowing.

Definition fields : list field := [fLogin; fName; fFollowers; fFollowing].

Definition tag (f : field) : string :=
  match f with
  | fLogin => "login"
  | fName => "name"
  | fFollowers => "followers"
  | fFollowing => "following"
  end.

(** The field an object key is stored into: the one whose name is the
    key, or else one whose name is the key up to case. *)
Definition find_field (key : string) : option field :=
  match find (fun f => tag f =? key) fields with
  | Some f => Some f
  | None => find (fun f => json.foldName (tag f) =? json.foldName key) fields
  end.

Definition store (f : field) (v : json.value) (u : GitHubUser)
    : GitHubUser * option json.error :=
  match f with
  | fLogin =>
      let '(s, e) := json.store_string "GitHubUser" (tag f) v (Login u) in
      ({| Login := s; Name := Name u; Followers := Followers u; Following := Following u |}, e)
  | fName =>
      let '(s, e) := json.store_string "GitHubUser" (tag f) v (Name u) in
      ({| Login := Login u; Name := s; Followers := Followers u; Following := Following u |}, e)
  | fFollowers =>
      let '(n, e) := json.store_int "GitHubUser" (tag f) v (Followers u) in
      ({| Login := Login u; Name := Name u; Followers := n; Following := Following u |}, e)
  | fFollowing =>
      let '(n, e) := json.store_int "GitHubUser" (tag f) v (Following u) in
      ({| Login := Login u; Name := Name u; Followers := Followers u; Following := n |}, e)
  end.

(** [decodeState.object] at a [GitHubUser]: the members are taken in
    order; a key that names no field is skipped with its value; a type
    error is saved and decoding goes on. *)
Fixpoint object (members : list (string * json.value)) (u : GitHubUser)
    (saved : option json.error) : GitHubUser * option json.error :=
  match members with
  | [] => (u, saved)
  | (key, v) :: rest =>
      match find_field key with
      | Some f =>
          let '(u', e) := store f v u in
          object rest u' (json.saveError saved e)
      | None => object rest u saved
      end
  end.

(** [decodeState.unmarshal] into [*GitHubUser]: an object fills the
    fields, [null] stores nothing, any other value is a type error. *)
Definition unmarshal (v : json.value) (u : GitHubUser)
    : GitHubUser * option json.error :=
  match v with
  | json.Object members => object members u None
  | json.Null => (u, None)
  | _ => (u, Some (json.UnmarshalTypeError (json.kind_name v) "" "" "github.GitHubUser"))
  end.

(** [json.NewDecoder(body).Decode(&u)]: the struct after the call and the
    error returned. *)
Definition Decode (body : string) (u : GitHubUser) : GitHubUser * option json.error :=
  match json.readValue body with
  | inl e => (u, Some e)
  | inr v => unmarshal v u
  end.

Import proc.
Local Open Scope proc_scope.

(** [[
    func GetUser(user string) {
      url := fmt.Sprintf("https://api.github.com/users/%s", user)
      resp, err := http.Get(url)
      if err != nil {
        fmt.Println("Erro ao buscar o usuário:", err)
        return
      }
      defer resp.Body.Close()

      var gitHubUser GitHubUser
      if err := json.NewDecoder(resp.Body).Decode(&gitHubUser); err != nil {
        fmt.Println("Erro ao decodificar resposta:", err)
        return
      }

      fmt.Printf("Usuário: %s\nNome: %s\nSeguidores: %d\nSeguindo: %d\n",
        gitHubUser.Login, gitHubUser.Name, gitHubUser.Followers, gitHubUser.Following)
    }
    ]] *)
Definition request_url (user : string) : string :=
  fmt.Sprintf "https://api.github.com/users/%s" [fmt.str user].

Definition profile_format : string :=
  "Usuário: %s" ++ Chars.nl ++ "Nome: %s" ++ Chars.nl
  ++ "Seguidores: %d" ++ Chars.nl ++ "Seguindo: %d" ++ Chars.nl.

Definition GetUser (user : string) : M unit :=
  let url := request_url user in
  r <- http.Get url ;;
  match r with
  | inr err => fmt.Println [fmt.str "Erro ao buscar o usuário:"; fmt.str err]
  | inl resp =>
      defer (http.Body_Close resp)
        (let '(gitHubUser, err) := Decode (http.Body resp) zero in
         match err with
         | Some e =>
             fmt.Println [fmt.str "Erro ao decodificar resposta:"; fmt.str (json.Error e)]
         | None =>
             fmt.Printf profile_format
               [fmt.str (Login gitHubUser); fmt.str (Name gitHubUser);
                fmt.int (Followers gitHubUser); fmt.int (Following gitHubUser)]
         end)
  end.

End github.

(** ** The command framework: flags (pflag), commands (cobra), viper *)

Module pflag.

Record Flag : Type := mkFlag {
  Name : string;
  Shorthand : string;
  Usage : string;
  Value : string;
  DefValue : string;
  Changed : bool
}.

Definition FlagSet : Type := list Flag.

(** [StringP name shorthand value usage]: a string flag with a default. *)
Definition StringP (name shorthand value usage : string) (fs : FlagSet) : FlagSet :=
  (fs ++ [{| Name := name; Shorthand := shorthand; Usage := usage;
             Value := value; DefValue := value; Changed := false |}])%list.

Definition Lookup (name : string) (fs : FlagSet) : option Flag :=
  find (fun f => Name f =? name) fs.

(** What parsing does for a flag given on the command line. *)
Definition Set_ (name value : string) (fs : FlagSet) : FlagSet :=
  map (fun f =>
         if Name f =? name
         then {| Name := Name f; Shorthand := Shorthand f; Usage := Usage f;
                 Value := value; DefValue := DefValue f; Changed := true |}
         else f) fs.

(** [GetString name]: the value and an error for an undeclared flag. *)
Definition GetString (name : string) (fs : FlagSet) : string * option string :=
  match Lookup name fs with
  | Some f => (Value f, None)
  | None => ("", Some ("flag accessed but not defined: " ++ name))
  end.

End pflag.

Module viper.

Import proc.

(** [viper.AutomaticEnv()]: from now on a read THROUGH viper
    ([viper.Get], [viper.GetString], ...) consults the environment. It
    changes nothing else. *)
Definition AutomaticEnv : M unit :=
  fun w => (Return tt,
            {| network := network w; environ := environ w;
               viper_automaticEnv := true; trace := trace w |}).

End viper.

Module cobra.

Import proc.
Local Open Scope proc_scope.

(** What the arguments of the process amount to for the framework.

    - It rejects them: [err] is the error [Execute] returns, [diagnostics]
      what the framework itself has written to standard error by then.
    - It answers them by itself, without calling [Run]: the help switch
      ([--help], [-h]) and the completion request (a first argument
      [__complete]). [output] is what the framework writes to standard
      output (the help text, the completions), [diagnostics] what it
      writes to standard error (nothing for help), and [initialized]
      tells whether it runs the initializers first (it does not for
      help). [Execute] returns no error.
    - It accepts them and calls [Run]: [user] is the value given to
      [--user] or [-u] ([None] when the flag is not on the command line)
      and [args] are the other arguments. *)
Inductive CommandLine : Type :=
| Rejected (err diagnostics : string)
| Answered (initialized : bool) (output diagnostics : string)
| Accepted (user : option string) (args : list string).

Record Command : Type := mkCommand {
  Use : string;
  Short : string;
  Run : pflag.FlagSet -> list string -> M unit;
  PersistentFlags : pflag.FlagSet
}.

Fixpoint run_all (l : list (M unit)) : M unit :=
  match l with
  | [] => ret tt
  | f :: rest => f ;; run_all rest
  end.

(** [c.Execute()] with the functions registered by [OnInitialize]: the
    flags are parsed, the initializers run, then [Run]; or the framework
    answers by itself. The result is the error, if any. *)
Definition Execute (c : Command) (initializers : list (M unit)) (cl : CommandLine)
    : M (option string) :=
  match cl with
  | Rejected err diagnostics => emit (Stderr diagnostics) ;; ret (Some err)
  | Answered initialized output diagnostics =>
      (if initialized then run_all initializers else ret tt) ;;
      emit (Stdout output) ;;
      emit (Stderr diagnostics) ;;
      ret None
  | Accepted user args =>
      let flags :=
        match user with
        | Some v => pflag.Set_ "user" v (PersistentFlags c)
        | None => PersistentFlags c
        end in
      run_all initializers ;;
      Run c flags args ;;
      ret None
  end.

End cobra.

(** ** Package cmd (cmd/root.go) *)

Module cmd.

Import proc.
Local Open Scope proc_scope.

(** [[
    Run: func(cmd *cobra.Command, args []string) {
      user, _ := cmd.Flags().GetString("user")
      if user == "" {
        fmt.Println("É necessário informar um usuário com -u ou --user")
        os.Exit(1)
      }
      github.GetUser(user)
    },
    ]] *)
Definition Run (flags : pflag.FlagSet) (args : list string) : M unit :=
  let '(user, _) := pflag.GetString "user" flags in
  (if user =? ""
   then fmt.Println [fmt.str "É necessário informar um usuário com -u ou --user"] ;;
        os.Exit 1
   else ret tt) ;;
  github.GetUser user.

(** [func initConfig() { viper.AutomaticEnv() }] *)
Definition initConfig : M unit := viper.AutomaticEnv.

(** The package after [func init()]: [cobra.OnInitialize(initConfig)] has
    registered the initializer, and
    [rootCmd.PersistentFlags().StringP("user", "u", "", ...)] the flag. *)
Definition initializers : list (M unit) := [initConfig].

Definition rootCmd : cobra.Command :=
  {| cobra.Use := "my-cli";
     cobra.Short := "Uma aplicação CLI para buscar usuários no GitHub";
     cobra.Run := Run;
     cobra.PersistentFlags := pflag.StringP "user" "u" "" "Usuário do GitHub" [] |}.

(** [[
    func Execute() {
      if err := rootCmd.Execute(); err != nil {
        fmt.Println(err)
        os.Exit(1)
      }
    }
    ]] *)
Definition Execute (cl : cobra.CommandLine) : M unit :=
  err <- cobra.Execute rootCmd initializers cl ;;
  match err with
  | Some e => fmt.Println [fmt.str e] ;; os.Exit 1
  | None => ret tt
  end.

End cmd.

(** ** Package main and the process as a whole *)

Module main.

Import proc.

(** [func main() { cmd.Execute() }] *)
Definition main (cl : cobra.CommandLine) : M unit := cmd.Execute cl.

(** The world at the start of the process. *)
Definition boot (net : nat -> string -> HttpResult) (env : list (string * string)) : World :=
  {| network := net; environ := env; viper_automaticEnv := false; trace := [] |}.

(** The exit status: the code given to [os.Exit], or 0 when [main]
    returns. *)
Definition status {A} (o : outcome A) : Z :=
  match o with
  | Return _ => 0
  | Exit code => code
  end.

Definition run (cl : cobra.CommandLine) (w : World) : Z * World :=
  let '(o, w') := main cl w in (status o, w').

End main.

(** * Properties of the program *)

(** ** Vocabulary of the statements *)

Module props.

Import Chars proc github.

(** The fixed part of the request URL. *)
Definition base : string := "https://api.github.com/users/".

(** The line [Run] prints when it has no user. *)
Definition missing_user : string :=
  "É necessário informar um usuário com -u ou --user" ++ nl.

(** The network's answer to the next call of [http.Get] for [user]. *)
Definition answer (w : World) (user : string) : HttpResult :=
  network w (length (requests (trace w))) (request_url user).

(** The text a successful lookup prints for a profile. *)
Definition profile_text (u : GitHubUser) : string :=
  "Usuário: " ++ Login u ++ nl ++ "Nome: " ++ Name u ++ nl
  ++ "Seguidores: " ++ fmt.Itoa (Followers u) ++ nl
  ++ "Seguindo: " ++ fmt.Itoa (Following u) ++ nl.

(** What one call of [GetUser] prints, by the answer it gets. *)
Definition output (r : HttpResult) : string :=
  match r with
  | TransportError msg => "Erro ao buscar o usuário: " ++ msg ++ nl
  | Response _ body =>
      match Decode body zero with
      | (_, Some e) => "Erro ao decodificar resposta: " ++ json.Error e ++ nl
      | (u, None) => profile_text u
      end
  end.

(** What one call of [GetUser] adds to the trace, by the identifier and
    the answer it gets. *)
Definition effects (user : string) (r : HttpResult) : list event :=
  match r with
  | TransportError _ => [HttpGet (request_url user); Stdout (output r)]
  | Response _ _ =>
      [HttpGet (request_url user); BodyOpened (request_url user);
       Stdout (output r); BodyClosed (request_url user)]
  end.

(** The lookup failed: the transport did, or decoding the body did. *)
Definition failed (r : HttpResult) : Prop :=
  match r with
  | TransportError _ => True
  | Response _ body => snd (Decode body zero) <> None
  end.

Definition field_eqb (f g : field) : bool :=
  match f, g with
  | fLogin, fLogin | fName, fName
  | fFollowers, fFollowers | fFollowing, fFollowing => true
  | _, _ => false
  end.

(** The key is stored into field [f]. *)
Definition names (f : field) (key : string) : bool :=
  match find_field key with
  | Some g => field_eqb f g
  | None => false
  end.

(** Field [f] is absent from the object: none of its keys is stored
    into [f]. *)
Definition absent (f : field) (members : list (string * json.value)) : bool :=
  forallb (fun m => negb (names f (fst m))) members.

(** The members of an object without its extra fields, those whose key is
    the name of no field of the record. *)
Definition known (members : list (string * json.value)) : list (string * json.value) :=
  filter (fun m => match find_field (fst m) with Some _ => true | None => false end) members.

(** The value of one field of the record. *)
Definition field_value (f : field) (u : GitHubUser) : string + Z :=
  match f with
  | fLogin => inl (Login u)
  | fName => inl (Name u)
  | fFollowers => inr (Followers u)
  | fFollowing => inr (Following u)
  end.

(** The scanner is inside a number. *)
Definition in_number (st : json.stepFn) : bool :=
  match st with
  | json.stateNeg | json.state1 | json.state0 | json.stateDot | json.stateDot0
  | json.stateE | json.stateESign | json.stateE0 => true
  | _ => false
  end.

(** The literal being read is a number: it begins with none of the bytes
    that begin [null], [true], [false] or a string. *)
Definition number_literal (l : option string) : bool :=
  match l with
  | Some (String c _) =>
      negb ((c =? "n") || (c =? "t") || (c =? "f") || (c =? dquote))%char
  | _ => false
  end.

(** Scanner and builder agree about numbers. *)
Definition reading_number (s : json.scanner) (b : json.builder) : Prop :=
  in_number (json.step s) = true -> number_literal (json.lit b) = true.

(** The values a [GitHubUser] takes without a type error. *)
Definition storable (v : json.value) : bool :=
  match v with
  | json.Null | json.Object _ => true
  | _ => false
  end.

(** The world when [Run] starts: the initializer has run. *)
Definition initialized (w : World) : World :=
  {| network := network w; environ := environ w;
     viper_automaticEnv := true; trace := trace w |}.

(** The process for one invocation, started in world [w]. *)
Definition exit_status (cl : cobra.CommandLine) (w : World) : Z := fst (main.run cl w).
Definition final_trace (cl : cobra.CommandLine) (w : World) : list event :=
  trace (snd (main.run cl w)).

(** A JSON string literal without escapes, and the stub response of the
    specification's example:
    [{"login":"facebook","name":"Facebook","followers":0,"following":0}]. *)
Definition quoted (s : string) : string := String dquote (s ++ String dquote "").

Definition facebook_body : string :=
  "{" ++ quoted "login" ++ ":" ++ quoted "facebook" ++ ","
  ++ quoted "name" ++ ":" ++ quoted "Facebook" ++ ","
  ++ quoted "followers" ++ ":0," ++ quoted "following" ++ ":0}".

Definition facebook : GitHubUser :=
  {| Login := "facebook"; Name := "Facebook"; Followers := 0; Following := 0 |}.

(** Worlds to try the program in: a network that is down, and one that
    answers every request with the same body. *)
Definition offline : World :=
  main.boot (fun _ _ => TransportError "dial tcp: lookup api.github.com: no such host") [].

Definition stub (body : string) : World :=
  main.boot (fun _ _ => Response 200 body) [].

(** A response with a field the record does not have and without two it
    has: [{"login":"octocat","id":583231,"followers":7}]. *)
Definition octocat_body : string :=
  "{" ++ quoted "login" ++ ":" ++ quoted "octocat" ++ ","
  ++ quoted "id" ++ ":583231," ++ quoted "followers" ++ ":7}".

(** *** Two sentences of the specification as they are written *)

(** "If absent or empty, writes a message to standard error and
    terminates the process with a non-zero exit code", and no request is
    made. *)
Definition missing_user_reported_on_stderr (cl : cobra.CommandLine) (w : World) : Prop :=
  stderr (final_trace cl w) <> stderr (trace w)
  /\ exit_status cl w <> 0%Z
  /\ requests (final_trace cl w) = requests (trace w).

(** "a fixed base URL plus path-encoded identifier". *)
Definition url_is_path_encoded (user : string) : Prop :=
  request_url user = base ++ url.PathEscape user.

End props.

(** ** More vocabulary: the process as a whole, the decoder *)

Module cases.

Import Chars proc github.

(** The user the command line gives, when it gives one that is not
    empty. *)
Definition given_user (cl : cobra.CommandLine) : option string :=
  match cl with
  | cobra.Accepted (Some user) _ => if user =? "" then None else Some user
  | _ => None
  end.

(** What one run of the process adds to the trace. *)
Definition run_events (cl : cobra.CommandLine) (w : World) : list event :=
  match cl with
  | cobra.Rejected err diagnostics => [Stderr diagnostics; Stdout (err ++ nl)]
  | cobra.Answered _ output diagnostics => [Stdout output; Stderr diagnostics]
  | cobra.Accepted _ _ =>
      match given_user cl with
      | Some user => props.effects user (props.answer w user)
      | None => [Stdout props.missing_user]
      end
  end.

(** What one run of the process prints on standard output. *)
Definition run_output (cl : cobra.CommandLine) (w : World) : string :=
  match cl with
  | cobra.Rejected err _ => err ++ nl
  | cobra.Answered _ output _ => output
  | cobra.Accepted _ _ =>
      match given_user cl with
      | Some user => props.output (props.answer w user)
      | None => props.missing_user
      end
  end.

(** What the framework writes on standard error. *)
Definition framework_diagnostics (cl : cobra.CommandLine) : string :=
  match cl with
  | cobra.Rejected _ diagnostics => diagnostics
  | cobra.Answered _ _ diagnostics => diagnostics
  | cobra.Accepted _ _ => ""
  end.

(** The fields of Go type [int]; the others are of type [string]. *)
Definition is_int_field (f : field) : bool :=
  match f with
  | fFollowers | fFollowing => true
  | fLogin | fName => false
  end.

(** What a JSON value puts into field [f]: a string into a string field, a
    number that is a 64-bit integer into an int field, and nothing
    otherwise. *)
Definition stored (f : field) (v : json.value) : option (string + Z) :=
  match v with
  | json.Str s => if is_int_field f then None else Some (inl s)
  | json.Number s => if is_int_field f then option_map inr (json.ParseInt s) else None
  | _ => None
  end.

(** The values field [f] takes without an error: [null] and those that are
    stored. *)
Definition well_typed (f : field) (v : json.value) : bool :=
  match v with
  | json.Null => true
  | _ => match stored f v with Some _ => true | None => false end
  end.

Definition member_ok (m : string * json.value) : bool :=
  match find_field (fst m) with
  | Some f => well_typed f (snd m)
  | None => true
  end.

(** The JSON values that decode without an error. *)
Definition acceptable (v : json.value) : bool :=
  match v with
  | json.Null => true
  | json.Object members => forallb member_ok members
  | _ => false
  end.

(** The member names field [f] and stores a value into it. *)
Definition overwrites (f : field) (m : string * json.value) : bool :=
  props.names f (fst m)
  && match stored f (snd m) with Some _ => true | None => false end.

(** The upper-case form of a lower-case ASCII letter; other bytes are left
    as they are. *)
Definition upper (c : ascii) : ascii :=
  if between "a" "z" c then ascii_of_N (code c - 32) else c.

(** A word of lower-case ASCII letters, as the four names of the fields
    are. *)
Fixpoint lower_word (s : string) : bool :=
  match s with
  | EmptyString => true
  | String c rest => between "a" "z" c && lower_word rest
  end.

(** [key] spells [name], a word of lower-case letters, up to case: every
    letter of the name is there in lower case or in upper case or, for
    [s] and [k], as the rune that case folding makes equal to it: U+017F
    (long s, the bytes C5 BF) and U+212A (Kelvin sign, the bytes
    E2 84 AA). Nothing else is a spelling of the name. *)
Fixpoint spells (name key : string) : bool :=
  match name, key with
  | EmptyString, EmptyString => true
  | String t name', String c key' =>
      (((c =? t) || (c =? upper t))%char && spells name' key')
      || match key' with
         | String d key2 =>
             ((t =? "s")%char && (code c =? 0xC5)%N && (code d =? 0xBF)%N
              && spells name' key2)
             || match key2 with
                | String e key3 =>
                    (t =? "k")%char && (code c =? 0xE2)%N && (code d =? 0x84)%N
                    && (code e =? 0xAA)%N && spells name' key3
                | EmptyString => false
                end
         | EmptyString => false
         end
  | _, _ => false
  end.

(** No member of the object has a key that spells the name of field [f]
    up to case. *)
Definition missing (f : field) (members : list (string * json.value)) : bool :=
  forallb (fun m => negb (spells (tag f) (fst m))) members.

(** The members whose key spells the name of one of the four fields up to
    case; the others are the extra members. *)
Definition named (members : list (string * json.value)) : list (string * json.value) :=
  filter (fun m => existsb (fun f => spells (tag f) (fst m)) fields) members.

(** The same two notions with keys compared byte for byte, as JSON
    compares them. *)
Definition lacks (name : string) (members : list (string * json.value)) : bool :=
  forallb (fun m => negb (fst m =? name)) members.

Definition named_exactly (members : list (string * json.value))
    : list (string * json.value) :=
  filter (fun m => existsb (fun f => tag f =? fst m) fields) members.

(** "each of the four Profile fields that is absent from the JSON object
    equals its zero value, and any extra fields in the JSON object are
    ignored", for one body, with keys compared byte for byte. *)
Definition defaults_by_exact_key (body : string) : Prop :=
  forall members u,
    json.readValue body = inr (json.Object members) ->
    Decode body zero = (u, None) ->
    (lacks "login" members = true -> Login u = "")
    /\ (lacks "name" members = true -> Name u = "")
    /\ (lacks "followers" members = true -> Followers u = 0%Z)
    /\ (lacks "following" members = true -> Following u = 0%Z)
    /\ unmarshal (json.Object (named_exactly members)) zero = (u, None).

(** A body whose only key is the login's name in capitals:
    [{"LOGIN":"up"}]. *)
Definition capitals_body : string :=
  "{" ++ props.quoted "LOGIN" ++ ":" ++ props.quoted "up" ++ "}".

(** Only white space. *)
Fixpoint blank (s : string) : bool :=
  match s with
  | EmptyString => true
  | String c rest => json.isSpace c && blank rest
  end.

(** Printable ASCII without the double quote and the backslash: the text
    that is its own JSON string. *)
Definition plain_byte (c : ascii) : bool :=
  ((32 <=? code c) && (code c <=? 126))%N
  && negb (c =? dquote)%char && negb (c =? "\")%char.

Fixpoint plain (s : string) : bool :=
  match s with
  | EmptyString => true
  | String c rest => plain_byte c && plain rest
  end.

(** The range of Go's [int]. *)
Definition int64 (n : Z) : bool := ((- 2 ^ 63 <=? n) && (n <=? 2 ^ 63 - 1))%Z.

(** The response body
    [{"login":L,"name":N,"followers":F,"following":G}] of a profile. *)
Definition profile_body (u : GitHubUser) : string :=
  "{" ++ props.quoted "login" ++ ":" ++ props.quoted (Login u) ++ ","
  ++ props.quoted "name" ++ ":" ++ props.quoted (Name u) ++ ","
  ++ props.quoted "followers" ++ ":" ++ fmt.Itoa (Followers u) ++ ","
  ++ props.quoted "following" ++ ":" ++ fmt.Itoa (Following u) ++ "}".

(** The body GitHub sends with status 404:
    [{"message":"Not Found","status":"404"}]. *)
Definition not_found_body : string :=
  "{" ++ props.quoted "message" ++ ":" ++ props.quoted "Not Found" ++ ","
  ++ props.quoted "status" ++ ":" ++ props.quoted "404" ++ "}".

(** The four lines of the empty profile. *)
Definition empty_profile : string :=
  "Usuário: " ++ nl ++ "Nome: " ++ nl ++ "Seguidores: 0" ++ nl ++ "Seguindo: 0" ++ nl.

(** A world whose network answers every request with status 404 and
    GitHub's body for it. *)
Definition not_found : World :=
  main.boot (fun _ _ => Response 404 not_found_body) [].

(** A body that names the login three times:
    [{"login":"a","Login":"b","login":null}]. *)
Definition thrice_body : string :=
  "{" ++ props.quoted "login" ++ ":" ++ props.quoted "a" ++ ","
  ++ props.quoted "Login" ++ ":" ++ props.quoted "b" ++ ","
  ++ props.quoted "login" ++ ":null}".

(** A profile with one follower more than an [int] holds. *)
Definition crowded : GitHubUser :=
  {| Login := "octocat"; Name := "The Octocat";
     Followers := 2 ^ 63; Following := 9 |}.

End cases.

(** ** Basic facts *)

Section Strings.

Lemma append_empty_r (s : string) : s ++ "" = s.
Proof. induction s as [|c s IH]; simpl; [reflexivity | now rewrite IH]. Qed.

Lemma append_assoc (s1 s2 s3 : string) : (s1 ++ s2) ++ s3 = s1 ++ (s2 ++ s3).
Proof. induction s1 as [|c s1 IH]; simpl; [reflexivity | now rewrite IH]. Qed.

Lemma request_url_verbatim (user : string) :
  github.request_url user = props.base ++ user.
Proof.
  unfold github.request_url, props.base. simpl. now rewrite append_empty_r.
Qed.

Lemma PathEscape_plain (s : string) : url.plain s = true -> url.PathEscape s = s.
Proof.
  induction s as [|c s IH]; simpl; [reflexivity|].
  destruct (url.shouldEscape c); simpl; [discriminate|].
  intros H. now rewrite IH.
Qed.

Lemma Sprintf_profile (a b : string) (m n : Z) :
  fmt.Sprintf github.profile_format [fmt.str a; fmt.str b; fmt.int m; fmt.int n]
  = props.profile_text {| github.Login := a; github.Name := b;
                          github.Followers := m; github.Following := n |}.
Proof.
  unfold github.profile_format, props.profile_text, Chars.nl. simpl.
  rewrite ?append_assoc. simpl. reflexivity.
Qed.

End Strings.

Section Traces.

Import proc.

Lemma stdout_app (t1 t2 : list event) : stdout (t1 ++ t2) = stdout t1 ++ stdout t2.
Proof.
  induction t1 as [|e t1 IH]; simpl; [reflexivity|].
  destruct e; simpl; rewrite ?IH; try reflexivity.
  now rewrite append_assoc.
Qed.

Lemma stderr_app (t1 t2 : list event) : stderr (t1 ++ t2) = stderr t1 ++ stderr t2.
Proof.
  induction t1 as [|e t1 IH]; simpl; [reflexivity|].
  destruct e; simpl; rewrite ?IH; try reflexivity.
  now rewrite append_assoc.
Qed.

Lemma requests_app (t1 t2 : list event) :
  requests (t1 ++ t2) = (requests t1 ++ requests t2)%list.
Proof.
  induction t1 as [|e t1 IH]; simpl; [reflexivity|].
  destruct e; simpl; rewrite ?IH; reflexivity.
Qed.

Lemma open_bodies_app (t1 t2 : list event) :
  open_bodies (t1 ++ t2) = (open_bodies t1 + open_bodies t2)%Z.
Proof.
  induction t1 as [|e t1 IH]; [reflexivity|].
  destruct e; cbn [open_bodies app]; rewrite ?IH; lia.
Qed.

End Traces.


(** ** The lookup, one call at a time *)

Section Lookup.

Import proc.

Lemma Sprintln_two (a b : string) :
  fmt.Sprintln [fmt.str a; fmt.str b] = a ++ " " ++ b ++ Chars.nl.
Proof. unfold fmt.Sprintln. simpl. now rewrite !append_assoc. Qed.

(** A call of [GetUser] always returns, and what it does is decided by
    the identifier and the answer of the network alone. *)
Lemma GetUser_run (user : string) (w : World) :
  github.GetUser user w
  = (Return tt, with_trace w (trace w ++ props.effects user (props.answer w user))).
Proof.
  unfold github.GetUser, bind, http.Get, props.answer, props.effects, props.output.
  destruct (network w _ _) as [msg|code body].
  - unfold fmt.Println, emit, with_trace. cbn [trace network environ viper_automaticEnv].
    rewrite Sprintln_two, <- app_assoc. reflexivity.
  - unfold defer, bind, http.Body_Close, emit. cbn [http.Body http.RequestURL].
    destruct (github.Decode body github.zero) as [u [e|]].
    + unfold fmt.Println, emit, with_trace. cbn [trace network environ viper_automaticEnv].
      rewrite Sprintln_two, <- !app_assoc. reflexivity.
    + unfold fmt.Printf, emit, with_trace. cbn [trace network environ viper_automaticEnv].
      destruct u as [a b m n].
      cbn [github.Login github.Name github.Followers github.Following].
      rewrite Sprintf_profile, <- !app_assoc. reflexivity.
Qed.

Lemma stdout_effects (user : string) (r : HttpResult) :
  stdout (props.effects user r) = props.output r.
Proof. destruct r; cbn [props.effects stdout]; apply append_empty_r. Qed.

Lemma requests_effects (user : string) (r : HttpResult) :
  requests (props.effects user r) = [github.request_url user].
Proof. destruct r; reflexivity. Qed.

Lemma stderr_effects (user : string) (r : HttpResult) :
  stderr (props.effects user r) = "".
Proof. destruct r; reflexivity. Qed.

End Lookup.

(** ** The command *)

Section Command.

Import proc.

Lemma GetString_declared :
  pflag.GetString "user" (cobra.PersistentFlags cmd.rootCmd) = ("", None).
Proof. reflexivity. Qed.

Lemma GetString_given (v : string) :
  pflag.GetString "user" (pflag.Set_ "user" v (cobra.PersistentFlags cmd.rootCmd))
  = (v, None).
Proof. reflexivity. Qed.

Lemma Run_without_user (flags : pflag.FlagSet) (args : list string) (w : World) :
  fst (pflag.GetString "user" flags) = "" ->
  cmd.Run flags args w
  = (Exit 1, with_trace w (trace w ++ [Stdout props.missing_user])).
Proof.
  unfold cmd.Run. destruct (pflag.GetString "user" flags) as [user e].
  simpl. intros ->. reflexivity.
Qed.

Lemma Run_with_user (flags : pflag.FlagSet) (args : list string) (w : World) (user : string) :
  fst (pflag.GetString "user" flags) = user -> user <> "" ->
  cmd.Run flags args w = github.GetUser user w.
Proof.
  unfold cmd.Run. destruct (pflag.GetString "user" flags) as [u e].
  simpl. intros -> Hne.
  destruct (String.eqb_spec user "") as [->|_]; [congruence|].
  reflexivity.
Qed.

Lemma main_accepted (user : option string) (args : list string) (w : World) :
  main.main (cobra.Accepted user args) w
  = match cmd.Run (match user with
                   | Some v => pflag.Set_ "user" v (cobra.PersistentFlags cmd.rootCmd)
                   | None => cobra.PersistentFlags cmd.rootCmd
                   end) args (props.initialized w) with
    | (Return _, w') => (Return tt, w')
    | (Exit code, w') => (Exit code, w')
    end.
Proof.
  unfold main.main, cmd.Execute, cobra.Execute, bind. cbn [cobra.Run cmd.rootCmd].
  unfold cmd.initializers, cobra.run_all, bind, cmd.initConfig, viper.AutomaticEnv, ret.
  fold (props.initialized w).
  destruct (cmd.Run _ args (props.initialized w)) as [[[]|code] w']; reflexivity.
Qed.

End Command.

(** ** The command: what [Run] does with the user option *)

Section CommandClaims.

Import proc.

(** C1, as the code has it: for every invocation in which the user option
    is absent or the empty string, the process prints the message on
    standard OUTPUT (nothing is written to standard error), ends with
    exit code 1, and makes no request: the lookup is not called. *)
Theorem missing_user_exits_1 (user : option string) (args : list string) (w : World) :
  user = None \/ user = Some "" ->
  props.exit_status (cobra.Accepted user args) w = 1%Z
  /\ props.final_trace (cobra.Accepted user args) w
     = (trace w ++ [Stdout props.missing_user])%list
  /\ stdout (props.final_trace (cobra.Accepted user args) w)
     = stdout (trace w) ++ props.missing_user
  /\ stderr (props.final_trace (cobra.Accepted user args) w) = stderr (trace w)
  /\ requests (props.final_trace (cobra.Accepted user args) w) = requests (trace w).
Proof.
  intros H.
  assert (R : main.run (cobra.Accepted user args) w
              = (1%Z, with_trace (props.initialized w)
                        (trace w ++ [Stdout props.missing_user]))).
  { unfold main.run. rewrite main_accepted.
    rewrite Run_without_user by (destruct H as [-> | ->]; reflexivity).
    reflexivity. }
  unfold props.exit_status, props.final_trace. rewrite R. cbn [fst snd with_trace trace].
  rewrite stdout_app, stderr_app, requests_app. cbn [stdout stderr requests].
  rewrite !append_empty_r, app_nil_r. repeat split.
Qed.

(** C1 as the specification words it fails: with no user option the
    message does not go to standard error. *)
Lemma missing_user_not_on_stderr :
  ~ props.missing_user_reported_on_stderr (cobra.Accepted None [])
      (main.boot (fun _ _ => TransportError "offline") []).
Proof. intros [H _]. apply H. reflexivity. Qed.

(** C2, at the input where the code departs from it: with no [--user] on
    the command line and [USER=octocat] in the environment, the process
    prints the missing-user message and ends with exit code 1 without any
    request. More generally the environment has no influence on what the
    process does. *)
Theorem environment_user_not_consulted :
  (forall net,
      props.exit_status (cobra.Accepted None []) (main.boot net [("USER", "octocat")]) = 1%Z
      /\ props.final_trace (cobra.Accepted None []) (main.boot net [("USER", "octocat")])
         = [Stdout props.missing_user])
  /\ (forall cl net env env',
         props.exit_status cl (main.boot net env) = props.exit_status cl (main.boot net env')
         /\ props.final_trace cl (main.boot net env)
            = props.final_trace cl (main.boot net env')).
Proof.
  split; [intros net; split; reflexivity|].
  intros [err diagnostics | initialized output diagnostics | user args] net env env';
    [split; reflexivity | destruct initialized; split; reflexivity |].
  unfold props.exit_status, props.final_trace, main.run.
  rewrite !main_accepted.
  set (flags := match user with
                | Some v => pflag.Set_ "user" v (cobra.PersistentFlags cmd.rootCmd)
                | None => cobra.PersistentFlags cmd.rootCmd
                end).
  destruct (String.eqb_spec (fst (pflag.GetString "user" flags)) "") as [E|E].
  - rewrite !Run_without_user by exact E. split; reflexivity.
  - rewrite !(Run_with_user flags args _ _ eq_refl E), !GetUser_run.
    split; reflexivity.
Qed.

(** C9: a user option that is not the empty string, white space
    included, passes the check and is handed to the lookup as it is:
    [Run] is then the call [GetUser user], and the process requests the
    URL made of the base and of these very bytes. *)
Theorem nonempty_user_forwarded_unchanged (user : string) (args : list string) (w : World) :
  user <> "" ->
  cmd.Run (pflag.Set_ "user" user (cobra.PersistentFlags cmd.rootCmd)) args w
  = github.GetUser user w
  /\ requests (props.final_trace (cobra.Accepted (Some user) args) w)
     = (requests (trace w) ++ [(props.base ++ user)%string])%list.
Proof.
  intros Hne. split.
  - apply Run_with_user; [reflexivity | exact Hne].
  - unfold props.final_trace, main.run. rewrite main_accepted.
    rewrite (Run_with_user (pflag.Set_ "user" user (cobra.PersistentFlags cmd.rootCmd))
               args _ user eq_refl Hne), GetUser_run.
    cbn [snd with_trace trace props.initialized].
    now rewrite requests_app, requests_effects, request_url_verbatim.
Qed.

(** C3, as the code has it: the request URL is the fixed base followed by
    the identifier byte for byte, with no encoding, and this is the URL
    given to [http.Get]; it is the path-encoded form only when no byte of
    the identifier needs escaping. *)
Theorem request_url_is_base_plus_identifier (user : string) (w : World) :
  github.request_url user = props.base ++ user
  /\ requests (trace (snd (github.GetUser user w)))
     = (requests (trace w) ++ [(props.base ++ user)%string])%list
  /\ (url.plain user = true -> props.url_is_path_encoded user).
Proof.
  split; [apply request_url_verbatim|]. split.
  - rewrite GetUser_run. cbn [snd with_trace trace].
    now rewrite requests_app, requests_effects, request_url_verbatim.
  - intros H. unfold props.url_is_path_encoded.
    now rewrite request_url_verbatim, PathEscape_plain.
Qed.

(** C3 as the specification words it fails: a slash, a space, a question
    mark and a hash sign go into the URL as they are. *)
Lemma request_url_not_path_encoded :
  ~ props.url_is_path_encoded "a/b"
  /\ ~ props.url_is_path_encoded "a b"
  /\ ~ props.url_is_path_encoded "a?b"
  /\ ~ props.url_is_path_encoded "a#b".
Proof. repeat split; intros H; vm_compute in H; discriminate H. Qed.

End CommandClaims.

(** ** The lookup: output, failures, the response body, repeated calls *)

Section LookupClaims.

Import proc.

(** C4: when the body decodes, the lookup prints the four lines
    [Usuário: {login}], [Nome: {name}], [Seguidores: {followers}],
    [Seguindo: {following}] and nothing else; the stub response of user
    facebook decodes to login facebook, name Facebook, 0 and 0, printed as
    those four lines. *)
Theorem decoded_profile_is_printed :
  (forall user w code body u,
      props.answer w user = Response code body ->
      github.Decode body github.zero = (u, None) ->
      github.GetUser user w
      = (Return tt,
         with_trace w
           (trace w ++ [HttpGet (github.request_url user);
                        BodyOpened (github.request_url user);
                        Stdout (props.profile_text u);
                        BodyClosed (github.request_url user)]))
      /\ stdout (trace (snd (github.GetUser user w)))
         = stdout (trace w) ++ props.profile_text u)
  /\ github.Decode props.facebook_body github.zero = (props.facebook, None)
  /\ props.profile_text props.facebook
     = "Usuário: facebook" ++ Chars.nl ++ "Nome: Facebook" ++ Chars.nl
       ++ "Seguidores: 0" ++ Chars.nl ++ "Seguindo: 0" ++ Chars.nl.
Proof.
  split; [|split; reflexivity].
  intros user w code body u Hr Hd.
  rewrite GetUser_run, Hr. unfold props.effects, props.output. rewrite Hd.
  split; [reflexivity|].
  cbn [snd with_trace trace]. rewrite stdout_app. cbn [stdout].
  now rewrite append_empty_r.
Qed.

(** C5: when the transport fails, and when the body does not decode, the
    lookup prints one line saying so and returns; it never ends the
    process, which then ends with status 0. *)
Theorem lookup_failure_is_printed :
  (forall user w msg,
      props.answer w user = TransportError msg ->
      github.GetUser user w
      = (Return tt,
         with_trace w
           (trace w ++ [HttpGet (github.request_url user);
                        Stdout ("Erro ao buscar o usuário: " ++ msg ++ Chars.nl)])))
  /\ (forall user w code body u e,
         props.answer w user = Response code body ->
         github.Decode body github.zero = (u, Some e) ->
         github.GetUser user w
         = (Return tt,
            with_trace w
              (trace w ++ [HttpGet (github.request_url user);
                           BodyOpened (github.request_url user);
                           Stdout ("Erro ao decodificar resposta: "
                                   ++ json.Error e ++ Chars.nl);
                           BodyClosed (github.request_url user)])))
  /\ (forall user args w,
         user <> "" -> props.failed (props.answer w user) ->
         props.exit_status (cobra.Accepted (Some user) args) w = 0%Z).
Proof.
  split; [|split].
  - intros user w msg Hr. now rewrite GetUser_run, Hr.
  - intros user w code body u e Hr Hd.
    rewrite GetUser_run, Hr. unfold props.effects, props.output. now rewrite Hd.
  - intros user args w Hne _.
    unfold props.exit_status, main.run. rewrite main_accepted.
    rewrite (Run_with_user (pflag.Set_ "user" user (cobra.PersistentFlags cmd.rootCmd))
               args _ user eq_refl Hne), GetUser_run.
    reflexivity.
Qed.

(** C7: whenever a response was obtained, the last thing the lookup does
    before it returns, after printing the profile or the decode error, is
    to close the body of that response; as many bodies are open after the
    call as before it. *)
Theorem response_body_is_closed (user : string) (w : World) (code : Z) (body : string) :
  props.answer w user = Response code body ->
  exists text,
    github.GetUser user w
    = (Return tt,
       with_trace w
         (trace w ++ [HttpGet (github.request_url user);
                      BodyOpened (github.request_url user);
                      Stdout text;
                      BodyClosed (github.request_url user)]))
    /\ open_bodies (trace (snd (github.GetUser user w))) = open_bodies (trace w).
Proof.
  intros Hr. exists (props.output (Response code body)).
  rewrite GetUser_run, Hr. split; [reflexivity|].
  cbn [snd with_trace trace props.effects]. rewrite open_bodies_app.
  cbn [open_bodies]. lia.
Qed.

(** C8: two successive calls of the lookup with the same identifier that
    get the same answer from the network do the same thing and print the
    same text; a call leaves nothing behind but its trace. *)
Theorem lookup_is_stateless (user : string) (w : World) (r : HttpResult) :
  network w (length (requests (trace w))) (github.request_url user) = r ->
  network w (S (length (requests (trace w)))) (github.request_url user) = r ->
  exists w1 w2,
    github.GetUser user w = (Return tt, w1)
    /\ github.GetUser user w1 = (Return tt, w2)
    /\ trace w1 = (trace w ++ props.effects user r)%list
    /\ trace w2 = (trace w1 ++ props.effects user r)%list
    /\ stdout (trace w1) = stdout (trace w) ++ props.output r
    /\ stdout (trace w2) = stdout (trace w1) ++ props.output r
    /\ network w2 = network w
    /\ environ w2 = environ w
    /\ viper_automaticEnv w2 = viper_automaticEnv w.
Proof.
  intros H1 H2.
  set (w1 := with_trace w (trace w ++ props.effects user r)).
  assert (A1 : props.answer w user = r) by exact H1.
  assert (A2 : props.answer w1 user = r).
  { unfold props.answer, w1. cbn [with_trace trace network].
    rewrite requests_app, requests_effects, length_app. cbn [length].
    rewrite Nat.add_1_r. exact H2. }
  exists w1, (with_trace w1 (trace w1 ++ props.effects user r)).
  rewrite !GetUser_run, A1, A2.
  subst w1.
  repeat split; cbn [with_trace trace]; try reflexivity;
    now rewrite stdout_app, stdout_effects.
Qed.

End LookupClaims.

(** ** The decoder *)

Section Decoder.

Import json.

Ltac split_cases H :=
  repeat match type of H with
         | context [if ?b then _ else _] => destruct b eqn:?
         | context [match ?x with _ => _ end] => destruct x eqn:?
         end.

(** *** Fields of the record *)

Lemma store_other (f g : github.field) (v : value) (u : github.GitHubUser) :
  props.field_eqb f g = false ->
  props.field_value f (fst (github.store g v u)) = props.field_value f u.
Proof.
  destruct f, g; try discriminate; intros _; unfold github.store;
    try destruct (store_string _ _ v _); try destruct (store_int _ _ v _);
    reflexivity.
Qed.

Lemma object_absent (f : github.field) (members : list (string * value)) :
  forall (u : github.GitHubUser) (saved : option error),
    props.absent f members = true ->
    props.field_value f (fst (github.object members u saved)) = props.field_value f u.
Proof.
  induction members as [|[key v] rest IH]; intros u saved H; [reflexivity|].
  cbn [props.absent forallb fst] in H. apply andb_true_iff in H as [Hk Hrest].
  fold (props.absent f rest) in Hrest.
  unfold props.names in Hk. cbn [github.object].
  destruct (github.find_field key) as [g|]; [|now apply IH].
  apply negb_true_iff in Hk.
  pose proof (store_other f g v u Hk) as Hs.
  destruct (github.store g v u) as [u' e]. cbn [fst] in Hs.
  now rewrite IH, Hs.
Qed.

Lemma object_known (members : list (string * value)) :
  forall (u : github.GitHubUser) (saved : option error),
    github.object members u saved = github.object (props.known members) u saved.
Proof.
  induction members as [|[key v] rest IH]; intros u saved; [reflexivity|].
  cbn [github.object props.known filter fst].
  fold (props.known rest).
  destruct (github.find_field key) as [g|] eqn:Hk; [|apply IH].
  cbn [github.object]. rewrite Hk.
  destruct (github.store g v u) as [u' e]. apply IH.
Qed.

(** *** The scanner and numbers *)

Lemma number_literal_grows (l : string) (c : ascii) :
  props.number_literal (Some l) = true ->
  props.number_literal (Some (l ++ String c "")) = true.
Proof. destruct l; simpl; [discriminate | trivial]. Qed.

Lemma scan_step_reading_number (s s' : scanner) (b : builder) (c : ascii) (op : opcode) :
  props.reading_number s b ->
  scan_step s c = (s', op) ->
  props.reading_number s' (build b c op).
Proof.
  unfold props.reading_number. destruct s as [st ps e]. intros Inv H.
  destruct st; cbn [step props.in_number] in Inv;
    unfold scan_step, do_stateBeginValue, do_stateBeginString, do_state0, do_stateESign,
      do_stateEndValue, do_stateEndTop, literal_step, hex_step, pushParseState,
      goto, scan_error in H;
    cbn [step parseStack err fst] in H.
  all: split_cases H.
  all: inversion H; subst; clear H; cbn [step props.in_number build lit]; try discriminate.
  all: try (intros _; destruct (lit b) as [l|]; [apply number_literal_grows|]; now apply Inv).
  all: try (intros _; now apply Inv).
  all: intros _; cbn [props.number_literal].
  all: try (match goal with
            | H : (?x =? _)%char = true |- _ => apply Ascii.eqb_eq in H; subst x
            end; reflexivity).
  all: repeat match goal with
              | H : (_ =? _)%char = false |- _ => rewrite H
              end; reflexivity.
Qed.

Lemma finished_number (b : builder) :
  props.number_literal (lit b) = true -> props.storable (finished b) = false.
Proof.
  unfold finished, end_literal. destruct (lit b) as [[|c l]|]; try discriminate.
  cbn [props.number_literal val literal_value]. rewrite negb_true_iff, !orb_false_iff.
  intros [[[-> ->] ->] ->]. reflexivity.
Qed.

(** Outside a number, a value that a space would end is ended by any
    byte. *)
Lemma ends_on_any_byte (s : scanner) (c : ascii) :
  props.in_number (step s) = false ->
  is_scanEnd (snd (scan_step s " ")) = true ->
  is_scanEnd (snd (scan_step s c)) = true.
Proof.
  destruct s as [st ps e]. cbn [step]. intros Hn.
  destruct st; try discriminate Hn;
    unfold scan_step, do_stateBeginValue, do_stateBeginString, do_stateEndValue,
      do_stateEndTop, literal_step, hex_step, goto, scan_error;
    cbn [step parseStack err fst snd]; try (cbn; discriminate).
  - destruct ps as [|p below]; [intros _; now destruct (isSpace c) | cbn; discriminate].
  - intros _. now destruct (isSpace c).
Qed.

(** *** Bytes after the value *)

Lemma readValue_from_prefix (body : string) :
  forall (s : scanner) (b : builder) (seen : bool) (v : value) (trailing : string),
    props.reading_number s b ->
    readValue_from s b seen body = inr v ->
    props.storable v = true ->
    readValue_from s b seen (body ++ trailing) = inr v.
Proof.
  induction body as [|c body IH]; intros s b seen v trailing Inv H Hv.
  - cbn [readValue_from] in H. cbn [append].
    destruct (is_scanEnd (snd (scan_step s " "))) eqn:Hend;
      [|destruct seen; discriminate H].
    injection H as <-.
    destruct (props.in_number (step s)) eqn:Hn.
    + rewrite (finished_number b (Inv Hn)) in Hv. discriminate Hv.
    + destruct trailing as [|c rest]; cbn [readValue_from]; [now rewrite Hend|].
      pose proof (ends_on_any_byte s c Hn Hend) as Hc.
      destruct (scan_step s c) as [s' op]. cbn [snd] in Hc.
      destruct op; try discriminate Hc. reflexivity.
  - cbn [append readValue_from] in *.
    destruct (scan_step s c) as [s' op] eqn:Hstep.
    pose proof (scan_step_reading_number s s' b c op Inv Hstep) as Inv'.
    destruct op; try exact H; try (now apply IH).
    + destruct (is_scanEnd (snd (do_stateEndValue s' " "))); [exact H | now apply IH].
    + destruct (is_scanEnd (snd (do_stateEndValue s' " "))); [exact H | now apply IH].
Qed.

Lemma unmarshal_storable (v : value) (u u' : github.GitHubUser) :
  github.unmarshal v u = (u', None) -> props.storable v = true.
Proof. destruct v; cbn; intros H; try reflexivity; discriminate H. Qed.

Lemma Decode_prefix (body trailing : string) (u : github.GitHubUser) :
  github.Decode body github.zero = (u, None) ->
  github.Decode (body ++ trailing) github.zero = (u, None).
Proof.
  unfold github.Decode, readValue.
  destruct (readValue_from reset empty_builder false body) as [e|v] eqn:Hr;
    [discriminate|].
  intros Hu.
  rewrite (readValue_from_prefix body _ _ _ v trailing); try assumption.
  - intros Hn. discriminate Hn.
  - eapply unmarshal_storable, Hu.
Qed.

End Decoder.

Section DecoderClaims.

Import proc.

(** C10: decoding reads one JSON value and stops. A body that decodes
    still decodes, to the same record, with any bytes put after it; the
    body [null] decodes without error to the record of zero values, and
    the lookup prints that record as a profile. *)
Theorem one_value_is_read_and_null_is_a_profile :
  (forall body trailing u,
      github.Decode body github.zero = (u, None) ->
      github.Decode (body ++ trailing) github.zero = (u, None))
  /\ github.Decode "null" github.zero = (github.zero, None)
  /\ (forall user w code,
         props.answer w user = Response code "null" ->
         github.GetUser user w
         = (Return tt,
            with_trace w
              (trace w ++ [HttpGet (github.request_url user);
                           BodyOpened (github.request_url user);
                           Stdout ("Usuário: " ++ Chars.nl ++ "Nome: " ++ Chars.nl
                                   ++ "Seguidores: 0" ++ Chars.nl
                                   ++ "Seguindo: 0" ++ Chars.nl);
                           BodyClosed (github.request_url user)]))).
Proof.
  split; [exact Decode_prefix|]. split; [reflexivity|].
  intros user w code Hr. now rewrite GetUser_run, Hr.
Qed.

End DecoderClaims.


(** ** The statements at concrete inputs *)

Section Instances.

Import proc.

(** No [--user], network down: exit code 1. *)
Lemma missing_user_exits_1_witness :
  (@None string = None \/ @None string = Some "")
  /\ props.exit_status (cobra.Accepted None []) props.offline = 1%Z
  /\ props.final_trace (cobra.Accepted None []) props.offline
     = (trace props.offline ++ [Stdout props.missing_user])%list.
Proof.
  split; [left; reflexivity|].
  pose proof (missing_user_exits_1 None [] props.offline (or_introl eq_refl)) as H.
  split; [exact (proj1 H) | exact (proj1 (proj2 H))].
Defined.

(** An identifier of letters only is its own path-encoded form. *)
Lemma request_url_is_base_plus_identifier_witness :
  url.plain "octocat" = true /\ props.url_is_path_encoded "octocat".
Proof.
  split; [reflexivity|].
  exact (proj2 (proj2 (request_url_is_base_plus_identifier "octocat" props.offline)) eq_refl).
Defined.

(** The example of the specification: user facebook and its stub
    response. *)
Lemma decoded_profile_is_printed_witness :
  props.answer (props.stub props.facebook_body) "facebook"
  = Response 200 props.facebook_body
  /\ github.Decode props.facebook_body github.zero = (props.facebook, None)
  /\ stdout (trace (snd (github.GetUser "facebook" (props.stub props.facebook_body))))
     = stdout (trace (props.stub props.facebook_body)) ++ props.profile_text props.facebook.
Proof.
  split; [reflexivity|]. split; [reflexivity|].
  exact (proj2 (proj1 decoded_profile_is_printed "facebook"
                  (props.stub props.facebook_body) 200%Z props.facebook_body
                  props.facebook eq_refl eq_refl)).
Defined.

(** The network down, and a body that is a page of HTML. *)
Lemma lookup_failure_is_printed_witness :
  (props.answer props.offline "octocat"
   = TransportError "dial tcp: lookup api.github.com: no such host"
   /\ fst (github.GetUser "octocat" props.offline) = Return tt)
  /\ (github.Decode "<html>" github.zero
      = (github.zero,
         Some (json.SyntaxError "invalid character '<' looking for beginning of value"))
      /\ fst (github.GetUser "octocat" (props.stub "<html>")) = Return tt)
  /\ ("octocat" <> "" /\ props.failed (props.answer props.offline "octocat")
      /\ props.exit_status (cobra.Accepted (Some "octocat") []) props.offline = 0%Z).
Proof.
  split; [|split].
  - split; [reflexivity|].
    now rewrite (proj1 lookup_failure_is_printed "octocat" props.offline _ eq_refl).
  - split; [reflexivity|].
    now rewrite (proj1 (proj2 lookup_failure_is_printed) "octocat" (props.stub "<html>")
                   200%Z "<html>" _ _ eq_refl eq_refl).
  - split; [discriminate|]. split; [exact I|].
    apply (proj2 (proj2 lookup_failure_is_printed)); [discriminate | exact I].
Defined.

(** The stub response of user facebook: its body is closed. *)
Lemma response_body_is_closed_witness :
  props.answer (props.stub props.facebook_body) "facebook"
  = Response 200 props.facebook_body
  /\ open_bodies (trace (snd (github.GetUser "facebook" (props.stub props.facebook_body))))
     = open_bodies (trace (props.stub props.facebook_body)).
Proof.
  split; [reflexivity|].
  destruct (response_body_is_closed "facebook" (props.stub props.facebook_body)
              200%Z props.facebook_body eq_refl) as [text [_ H]].
  exact H.
Defined.

(** The same stub response twice: the same four lines twice. *)
Lemma lookup_is_stateless_witness :
  network (props.stub props.facebook_body) 0 (github.request_url "facebook")
  = Response 200 props.facebook_body
  /\ network (props.stub props.facebook_body) 1 (github.request_url "facebook")
     = Response 200 props.facebook_body
  /\ exists w1 w2,
      github.GetUser "facebook" (props.stub props.facebook_body) = (Return tt, w1)
      /\ github.GetUser "facebook" w1 = (Return tt, w2)
      /\ stdout (trace w1) = props.profile_text props.facebook
      /\ stdout (trace w2) = props.profile_text props.facebook ++ props.profile_text props.facebook.
Proof.
  split; [reflexivity|]. split; [reflexivity|].
  destruct (lookup_is_stateless "facebook" (props.stub props.facebook_body)
              (Response 200 props.facebook_body) eq_refl eq_refl)
    as (w1 & w2 & H1 & H2 & _ & _ & S1 & S2 & _).
  exists w1, w2.
  split; [exact H1|]. split; [exact H2|].
  split; [exact S1 | rewrite S2, S1; reflexivity].
Defined.

(** A user option of three spaces. *)
Lemma nonempty_user_forwarded_unchanged_witness :
  "   " <> ""
  /\ cmd.Run (pflag.Set_ "user" "   " (cobra.PersistentFlags cmd.rootCmd)) [] props.offline
     = github.GetUser "   " props.offline
  /\ requests (props.final_trace (cobra.Accepted (Some "   ") []) props.offline)
     = ["https://api.github.com/users/   "].
Proof.
  split; [discriminate|].
  apply (nonempty_user_forwarded_unchanged "   " [] props.offline). discriminate.
Defined.

(** [null], and the stub response of user facebook, followed by a page of
    HTML. *)
Lemma one_value_is_read_and_null_is_a_profile_witness :
  github.Decode "null" github.zero = (github.zero, None)
  /\ github.Decode ("null" ++ "<html><body>Not Found</body></html>") github.zero
     = (github.zero, None)
  /\ github.Decode props.facebook_body github.zero = (props.facebook, None)
  /\ github.Decode (props.facebook_body ++ "<html><body>Not Found</body></html>")
       github.zero
     = (props.facebook, None).
Proof.
  split; [reflexivity|]. split; [|split; [reflexivity|]].
  - exact (proj1 one_value_is_read_and_null_is_a_profile "null"
             "<html><body>Not Found</body></html>" github.zero eq_refl).
  - exact (proj1 one_value_is_read_and_null_is_a_profile props.facebook_body
             "<html><body>Not Found</body></html>" props.facebook eq_refl).
Defined.

End Instances.

(** * More of the program *)

(** ** The process as a whole: exit status, requests, output *)

Section Process.

Import proc.

Lemma given_user_spec (user : option string) (args : list string) :
  match cases.given_user (cobra.Accepted user args) with
  | Some u => user = Some u /\ u <> ""
  | None => user = None \/ user = Some ""
  end.
Proof.
  destruct user as [u|]; cbn; [|now left].
  destruct (String.eqb_spec u "") as [->|Hne]; [now right | now split].
Qed.

(** One run of the process, whatever the command line. *)
Lemma main_run (cl : cobra.CommandLine) (w : World) :
  props.exit_status cl w
  = match cl with
    | cobra.Rejected _ _ => 1%Z
    | cobra.Answered _ _ _ => 0%Z
    | cobra.Accepted _ _ =>
        match cases.given_user cl with Some _ => 0%Z | None => 1%Z end
    end
  /\ props.final_trace cl w = (trace w ++ cases.run_events cl w)%list.
Proof.
  destruct cl as [err diagnostics | initialized output diagnostics | user args].
  - unfold props.exit_status, props.final_trace. cbn.
    now rewrite <- app_assoc.
  - unfold props.exit_status, props.final_trace.
    destruct initialized; cbn; now rewrite <- app_assoc.
  - pose proof (given_user_spec user args) as G.
    unfold cases.run_events.
    destruct (cases.given_user (cobra.Accepted user args)) as [u|].
    + destruct G as [-> Hne].
      unfold props.exit_status, props.final_trace, main.run. rewrite main_accepted.
      rewrite (Run_with_user (pflag.Set_ "user" u (cobra.PersistentFlags cmd.rootCmd))
                 args _ u eq_refl Hne), GetUser_run.
      split; reflexivity.
    + unfold props.exit_status, props.final_trace, main.run. rewrite main_accepted.
      rewrite Run_without_user by (destruct G as [-> | ->]; reflexivity).
      split; reflexivity.
Qed.

(** X1: the exit status of the process is 1 when the framework rejects
    the arguments and when it calls [Run] with no user or an empty one; it
    is 0 in every other run: when the framework answers by itself (help,
    completion), and when [Run] gets a user, whatever the lookup meets. *)
Theorem exit_status_by_command_line (cl : cobra.CommandLine) (w : World) :
  props.exit_status cl w
  = match cl with
    | cobra.Rejected _ _ => 1%Z
    | cobra.Answered _ _ _ => 0%Z
    | cobra.Accepted _ _ =>
        match cases.given_user cl with Some _ => 0%Z | None => 1%Z end
    end.
Proof. apply main_run. Qed.

(** X2: one run calls [http.Get] at most once: not at all unless the
    framework calls [Run] with a user that is not empty, and then exactly
    once, with the base URL followed by that user. (What the transport
    then sends, if anything, is its own affair.) *)
Theorem http_Get_called_at_most_once (cl : cobra.CommandLine) (w : World) :
  requests (props.final_trace cl w)
  = (requests (trace w)
     ++ match cases.given_user cl with
        | Some user => [(props.base ++ user)%string]
        | None => []
        end)%list.
Proof.
  rewrite (proj2 (main_run cl w)), requests_app. f_equal.
  unfold cases.run_events.
  destruct cl as [err diagnostics | initialized output diagnostics | user args];
    [reflexivity | reflexivity |].
  destruct (cases.given_user _) as [u|]; [|reflexivity].
  now rewrite requests_effects, request_url_verbatim.
Qed.

(** X3: what one run adds to standard output is, by the case: the
    framework's own output when it answers by itself (the help text); the
    error and a newline when it rejects the arguments; the missing-user
    line; or what the lookup prints for the answer it gets. The code of
    the program prints at most one message. *)
Theorem one_message_on_stdout (cl : cobra.CommandLine) (w : World) :
  stdout (props.final_trace cl w) = stdout (trace w) ++ cases.run_output cl w.
Proof.
  rewrite (proj2 (main_run cl w)), stdout_app. f_equal.
  unfold cases.run_events, cases.run_output.
  destruct cl as [err diagnostics | initialized output diagnostics | user args];
    [cbn; apply append_empty_r | cbn; apply append_empty_r |].
  destruct (cases.given_user _) as [u|]; [apply stdout_effects | reflexivity].
Qed.

(** X4: the program itself never writes to standard error; what appears
    there is what the framework wrote, when it rejected the arguments or
    answered them by itself. *)
Theorem stderr_is_left_to_the_framework (cl : cobra.CommandLine) (w : World) :
  stderr (props.final_trace cl w) = stderr (trace w) ++ cases.framework_diagnostics cl.
Proof.
  rewrite (proj2 (main_run cl w)), stderr_app. f_equal.
  unfold cases.run_events, cases.framework_diagnostics.
  destruct cl as [err diagnostics | initialized output diagnostics | user args];
    [cbn; apply append_empty_r | cbn; apply append_empty_r |].
  destruct (cases.given_user _) as [u|]; [apply stderr_effects | reflexivity].
Qed.

(** X5: no run leaves a response body open, the runs that end in
    [os.Exit] included (a deferred close would not run there, but no body
    is open when the process exits that way). *)
Theorem no_body_left_open (cl : cobra.CommandLine) (w : World) :
  open_bodies (props.final_trace cl w) = open_bodies (trace w).
Proof.
  rewrite (proj2 (main_run cl w)), open_bodies_app.
  unfold cases.run_events.
  destruct cl as [err diagnostics | initialized output diagnostics | user args];
    [cbn; lia | cbn; lia |].
  destruct (cases.given_user _) as [u|]; [|cbn; lia].
  destruct (props.answer w u); cbn [props.effects open_bodies]; lia.
Qed.

End Process.

(** ** The decoder: which bodies decode, and to what *)

Section DecoderMore.

Import proc.

(** X7: the status of the response is not looked at: a response of any
    status is handled as one of status 200 with the same body. So a body
    that is a JSON object with none of the four fields, the body of a 404
    for one, is printed as the empty profile. *)
Theorem status_code_is_ignored
    (user : string) (w : World) (code : Z) (body : string) :
  props.answer w user = Response code body ->
  github.GetUser user w
  = (Return tt, with_trace w (trace w ++ props.effects user (Response 200 body)))
  /\ (forall members,
         json.readValue body = inr (json.Object members) ->
         props.known members = [] ->
         stdout (trace (snd (github.GetUser user w)))
         = stdout (trace w) ++ cases.empty_profile).
Proof.
  intros Hr. rewrite GetUser_run, Hr. split; [reflexivity|].
  intros members Hv Hk. cbn [snd with_trace trace].
  rewrite stdout_app, stdout_effects. f_equal.
  unfold props.output, github.Decode. rewrite Hv. cbn [github.unmarshal].
  rewrite object_known, Hk. reflexivity.
Qed.

Lemma store_error (f : github.field) (v : json.value) (u : github.GitHubUser) :
  snd (github.store f v u) = None <-> cases.well_typed f v = true.
Proof.
  destruct f, v; cbn; try (split; [reflexivity | reflexivity]);
    try (split; discriminate);
    destruct (json.ParseInt literal); cbn; split; try reflexivity; discriminate.
Qed.

Lemma object_saved (members : list (string * json.value)) :
  forall (u : github.GitHubUser) (e : json.error),
    snd (github.object members u (Some e)) = Some e.
Proof.
  induction members as [|[key v] rest IH]; intros u e; [reflexivity|].
  cbn [github.object]. destruct (github.find_field key) as [f|]; [|apply IH].
  destruct (github.store f v u) as [u' e']. apply IH.
Qed.

Lemma object_error (members : list (string * json.value)) :
  forall (u : github.GitHubUser),
    snd (github.object members u None) = None
    <-> forallb cases.member_ok members = true.
Proof.
  induction members as [|[key v] rest IH]; intros u; [split; reflexivity|].
  cbn [github.object forallb]. unfold cases.member_ok at 1. cbn [fst snd].
  destruct (github.find_field key) as [f|]; [|apply IH].
  pose proof (store_error f v u) as S.
  destruct (github.store f v u) as [u' [e|]]; cbn [snd json.saveError] in *.
  - rewrite object_saved. split; [discriminate|].
    intros H. apply andb_true_iff in H as [H _]. apply S in H. discriminate H.
  - rewrite (proj1 S eq_refl). apply IH.
Qed.

(** X8: a body that holds a JSON value decodes without error exactly when
    the value is [null] or an object in which every member naming a field
    of the record is [null] or of the field's type: a string for login and
    name, an integer of 64 bits for the two counts. *)
Theorem decode_succeeds_iff_well_typed (body : string) (v : json.value) :
  json.readValue body = inr v ->
  (snd (github.Decode body github.zero) = None <-> cases.acceptable v = true).
Proof.
  intros Hv. unfold github.Decode. rewrite Hv.
  destruct v; cbn [github.unmarshal cases.acceptable snd];
    try (split; [reflexivity | reflexivity]); try (split; discriminate).
  apply object_error.
Qed.

Lemma store_stored (f : github.field) (v : json.value) (u : github.GitHubUser)
    (x : string + Z) :
  cases.stored f v = Some x -> props.field_value f (fst (github.store f v u)) = x.
Proof.
  destruct f, v; cbn; try discriminate; try (now intros [= <-]);
    destruct (json.ParseInt literal); cbn; try discriminate; now intros [= <-].
Qed.

Lemma store_not_stored (f : github.field) (v : json.value) (u : github.GitHubUser) :
  cases.stored f v = None ->
  props.field_value f (fst (github.store f v u)) = props.field_value f u.
Proof.
  destruct f, v; cbn; try discriminate; try reflexivity;
    destruct (json.ParseInt literal); cbn; try discriminate; reflexivity.
Qed.

Lemma names_spec (f g : github.field) (key : string) :
  github.find_field key = Some g -> props.names f key = props.field_eqb f g.
Proof. unfold props.names. now intros ->. Qed.

Lemma field_eqb_eq (f g : github.field) : props.field_eqb f g = true -> f = g.
Proof. destruct f, g; try discriminate; reflexivity. Qed.

Lemma object_not_overwritten (f : github.field) (members : list (string * json.value)) :
  forall (u : github.GitHubUser) (saved : option json.error),
    forallb (fun m => negb (cases.overwrites f m)) members = true ->
    props.field_value f (fst (github.object members u saved)) = props.field_value f u.
Proof.
  induction members as [|[key v] rest IH]; intros u saved H; [reflexivity|].
  cbn [forallb] in H. apply andb_true_iff in H as [Hm Hrest].
  cbn [github.object]. unfold cases.overwrites, props.names in Hm. cbn [fst snd] in Hm.
  destruct (github.find_field key) as [g|]; [|now apply IH].
  assert (Hs : props.field_value f (fst (github.store g v u)) = props.field_value f u).
  { destruct (props.field_eqb f g) eqn:E.
    - apply field_eqb_eq in E. subst g. apply store_not_stored.
      cbn in Hm. now destruct (cases.stored f v).
    - now apply store_other. }
  destruct (github.store g v u) as [u' e]. cbn [fst] in Hs.
  now rewrite IH, Hs.
Qed.

Lemma object_app (before after : list (string * json.value)) :
  forall (u : github.GitHubUser) (saved : option json.error),
    github.object (before ++ after) u saved
    = github.object after (fst (github.object before u saved))
        (snd (github.object before u saved)).
Proof.
  induction before as [|[key v] rest IH]; intros u saved; [reflexivity|].
  cbn [app github.object]. destruct (github.find_field key) as [f|]; [|apply IH].
  destruct (github.store f v u) as [u' e]. apply IH.
Qed.

(** X9: when several members of the object name the same field, the last
    one that holds a value of the field's type gives the field its value;
    members after it that are [null] or of another type leave it. *)
Theorem last_member_of_a_field_wins
    (body : string) (before after : list (string * json.value))
    (key : string) (v : json.value) (f : github.field) (x : string + Z) :
  json.readValue body = inr (json.Object (before ++ (key, v) :: after)) ->
  github.find_field key = Some f ->
  cases.stored f v = Some x ->
  forallb (fun m => negb (cases.overwrites f m)) after = true ->
  props.field_value f (fst (github.Decode body github.zero)) = x.
Proof.
  intros Hv Hk Hs Hafter. unfold github.Decode. rewrite Hv. cbn [github.unmarshal].
  rewrite object_app. cbn [github.object]. rewrite Hk.
  pose proof (store_stored f v (fst (github.object before github.zero None)) x Hs) as S.
  destruct (github.store f v _) as [u' e]. cbn [fst] in S.
  now rewrite object_not_overwritten.
Qed.

End DecoderMore.

(** ** The decoder: keys, white space, empty bodies *)

Section Keys.

Import proc.

(** A key is stored into the field whose name has the same folded name. *)
Lemma find_field_fold (key : string) (f : github.field) :
  github.find_field key = Some f <-> json.foldName key = json.foldName (github.tag f).
Proof.
  unfold github.find_field, github.fields. cbn [find github.tag].
  destruct (String.eqb_spec "login" key) as [<-|_];
    [destruct f; cbn; split; congruence|].
  destruct (String.eqb_spec "name" key) as [<-|_];
    [destruct f; cbn; split; congruence|].
  destruct (String.eqb_spec "followers" key) as [<-|_];
    [destruct f; cbn; split; congruence|].
  destruct (String.eqb_spec "following" key) as [<-|_];
    [destruct f; cbn; split; congruence|].
  destruct (String.eqb_spec (json.foldName "login") (json.foldName key)) as [<-|N1];
    [destruct f; cbn; split; congruence|].
  destruct (String.eqb_spec (json.foldName "name") (json.foldName key)) as [<-|N2];
    [destruct f; cbn; split; congruence|].
  destruct (String.eqb_spec (json.foldName "followers") (json.foldName key)) as [<-|N3];
    [destruct f; cbn; split; congruence|].
  destruct (String.eqb_spec (json.foldName "following") (json.foldName key)) as [<-|N4];
    [destruct f; cbn; split; congruence|].
  split; [discriminate|]. intros H. destruct f; cbn [github.tag] in H; congruence.
Qed.

Lemma readValue_leading_space (ws body : string) :
  cases.blank ws = true ->
  json.readValue (ws ++ body) = json.readValue body.
Proof.
  unfold json.readValue.
  induction ws as [|c ws IH]; intros H; [reflexivity|].
  cbn [cases.blank] in H. apply andb_true_iff in H as [Hc Hws].
  cbn [append json.readValue_from].
  unfold json.scan_step, json.reset. cbn [json.step].
  unfold json.do_stateBeginValue. rewrite Hc.
  cbn [json.build json.end_literal json.empty_builder json.lit negb orb].
  now apply IH.
Qed.

(** X11: white space before the value changes nothing of what is
    decoded. *)
Theorem leading_space_is_skipped (ws body : string) :
  cases.blank ws = true ->
  github.Decode (ws ++ body) github.zero = github.Decode body github.zero.
Proof. intros H. unfold github.Decode. now rewrite readValue_leading_space. Qed.

(** X12: an empty body, or one of white space only, does not decode: the
    error is [io.EOF] and the lookup prints it. *)
Theorem blank_body_is_EOF (user : string) (w : World) (code : Z) (body : string) :
  props.answer w user = Response code body ->
  cases.blank body = true ->
  github.Decode body github.zero = (github.zero, Some json.io_EOF)
  /\ stdout (trace (snd (github.GetUser user w)))
     = stdout (trace w) ++ "Erro ao decodificar resposta: EOF" ++ Chars.nl.
Proof.
  intros Hr Hb.
  assert (D : github.Decode body github.zero = (github.zero, Some json.io_EOF)).
  { unfold github.Decode. rewrite <- (append_empty_r body).
    rewrite readValue_leading_space by exact Hb. reflexivity. }
  split; [exact D|].
  rewrite GetUser_run, Hr. cbn [snd with_trace trace].
  rewrite stdout_app, stdout_effects. unfold props.output. now rewrite D.
Qed.

End Keys.

(** ** The decoder: how keys name fields *)

Section Spelling.

Import Chars proc.

Lemma between_bounds (lo hi c : ascii) :
  between lo hi c = true -> (code lo <= code c <= code hi)%N.
Proof.
  unfold between. rewrite andb_true_iff, !N.leb_le. tauto.
Qed.

Lemma code_lt_256 (c : ascii) : (code c < 256)%N.
Proof. apply N_ascii_bounded. Qed.

Lemma code_inj (c d : ascii) : code c = code d -> c = d.
Proof.
  intros H. rewrite <- (ascii_N_embedding c), <- (ascii_N_embedding d).
  unfold code in H. now rewrite H.
Qed.

Lemma code_upper (t : ascii) :
  between "a" "z" t = true -> code (cases.upper t) = (code t - 32)%N.
Proof.
  intros H. unfold cases.upper. rewrite H. unfold code at 1.
  apply N_ascii_embedding. pose proof (code_lt_256 t). lia.
Qed.

(** The head of a folded key, by the three cases of [foldName]. *)
Lemma foldName_lower (c : ascii) (rest : string) :
  between "a" "z" c = true ->
  json.foldName (String c rest) = String (cases.upper c) (json.foldName rest).
Proof.
  intros H. cbn [json.foldName]. unfold cases.upper. now rewrite H.
Qed.

Lemma foldName_other (c : ascii) (rest : string) :
  between "a" "z" c = false ->
  (code c =? 0xC5)%N = false -> (code c =? 0xE2)%N = false ->
  json.foldName (String c rest) = String c (json.foldName rest).
Proof.
  intros H H1 H2. cbn [json.foldName]. rewrite H.
  destruct rest as [|d [|e rest2]]; rewrite ?H1, ?H2; reflexivity.
Qed.

Lemma upper_letter (t : ascii) :
  between "a" "z" t = true ->
  between "a" "z" (cases.upper t) = false
  /\ (code (cases.upper t) =? 0xC5)%N = false
  /\ (code (cases.upper t) =? 0xE2)%N = false.
Proof.
  intros H. pose proof (code_upper t H) as U. apply between_bounds in H.
  change (code "a") with 97%N in H. change (code "z") with 122%N in H.
  unfold between. change (code "a") with 97%N. change (code "z") with 122%N.
  rewrite U. repeat split.
  - apply andb_false_iff. left. apply N.leb_gt. lia.
  - apply N.eqb_neq. lia.
  - apply N.eqb_neq. lia.
Qed.

Lemma upper_inj (c t : ascii) :
  between "a" "z" c = true -> between "a" "z" t = true ->
  cases.upper c = cases.upper t -> c = t.
Proof.
  intros Hc Ht E. apply (f_equal code) in E. rewrite !code_upper in E by assumption.
  apply between_bounds in Hc, Ht.
  change (code "a") with 97%N in *. apply code_inj. lia.
Qed.

Lemma code_eqb (c : ascii) (n : N) : (code c =? n)%N = true -> c = ascii_of_N n.
Proof.
  intros H. apply N.eqb_eq in H. rewrite <- H. unfold code.
  symmetry. apply ascii_N_embedding.
Qed.

Lemma spells_fold (name : string) :
  cases.lower_word name = true ->
  forall key, cases.spells name key = true -> json.foldName key = json.foldName name.
Proof.
  induction name as [|t name IH]; intros Hw key H.
  - destruct key; [reflexivity | discriminate H].
  - cbn [cases.lower_word] in Hw. apply andb_true_iff in Hw as [Ht Hw].
    destruct key as [|c key]; [discriminate H|].
    cbn [cases.spells] in H. rewrite (foldName_lower t name Ht).
    apply orb_true_iff in H as [H|H].
    + apply andb_true_iff in H as [Hc Hs]. apply IH in Hs; [|exact Hw].
      apply orb_true_iff in Hc as [Hc|Hc]; apply Ascii.eqb_eq in Hc; subst c.
      * now rewrite (foldName_lower t key Ht), Hs.
      * destruct (upper_letter t Ht) as (U1 & U2 & U3).
        now rewrite (foldName_other _ key U1 U2 U3), Hs.
    + destruct key as [|d key2]; [discriminate H|].
      apply orb_true_iff in H as [H|H].
      * rewrite !andb_true_iff in H. destruct H as [[[Hs Hc] Hd] Hk].
        apply Ascii.eqb_eq in Hs. subst t.
        apply code_eqb in Hc, Hd. subst c d.
        apply IH in Hk; [|exact Hw]. cbn. now rewrite Hk.
      * destruct key2 as [|e key3]; [discriminate H|].
        rewrite !andb_true_iff in H. destruct H as [[[[Hs Hc] Hd] He] Hk].
        apply Ascii.eqb_eq in Hs. subst t.
        apply code_eqb in Hc, Hd, He. subst c d e.
        apply IH in Hk; [|exact Hw]. cbn. now rewrite Hk.
Qed.

Lemma upper_is (t : ascii) (c : ascii) :
  between "a" "z" t = true -> cases.upper t = c ->
  (Ascii.eqb t (ascii_of_N (code c + 32)) = true).
Proof.
  intros Ht E. apply Ascii.eqb_eq. subst c. rewrite (code_upper t Ht).
  apply between_bounds in Ht. change (code "a") with 97%N in Ht.
  replace (code t - 32 + 32)%N with (code t) by lia.
  unfold code. symmetry. apply ascii_N_embedding.
Qed.

Lemma foldName_cons (c : ascii) (rest : string) :
  json.foldName (String c rest)
  = if between "a" "z" c
    then String (ascii_of_N (code c - 32)) (json.foldName rest)
    else
      match rest with
      | String d rest1 =>
          if ((code c =? 0xC5) && (code d =? 0xBF))%N
          then String "S" (json.foldName rest1)
          else
            match rest1 with
            | String e rest2 =>
                if ((code c =? 0xE2) && (code d =? 0x84) && (code e =? 0xAA))%N
                then String "K" (json.foldName rest2)
                else String c (json.foldName rest)
            | EmptyString => String c (json.foldName rest)
            end
      | EmptyString => String c (json.foldName rest)
      end.
Proof. reflexivity. Qed.

Lemma fold_spells (name : string) :
  cases.lower_word name = true ->
  forall key, json.foldName key = json.foldName name -> cases.spells name key = true.
Proof.
  induction name as [|t name IH]; intros Hw key H.
  - destruct key as [|c key]; [reflexivity|].
    exfalso. rewrite foldName_cons in H.
    destruct (between "a" "z" c); [discriminate H|].
    destruct key as [|d [|e key3]];
      repeat match type of H with
             | context [if ?b then _ else _] => destruct b
             end; discriminate H.
  - cbn [cases.lower_word] in Hw. apply andb_true_iff in Hw as [Ht Hw].
    rewrite (foldName_lower t name Ht) in H.
    destruct key as [|c key]; [discriminate H|].
    cbn [cases.spells].
    destruct (between "a" "z" c) eqn:Hc.
    + rewrite (foldName_lower c key Hc) in H. injection H as Hu Hk.
      apply (upper_inj c t Hc Ht) in Hu. subst c.
      rewrite Ascii.eqb_refl, (IH Hw key Hk). reflexivity.
    + rewrite foldName_cons, Hc in H.
      destruct key as [|d key2].
      * injection H as Hu Hk. subst c.
        rewrite Ascii.eqb_refl, orb_true_r, (IH Hw "" Hk). reflexivity.
      * destruct ((code c =? 0xC5)%N && (code d =? 0xBF)%N) eqn:E1.
        { injection H as Hu Hk. apply andb_true_iff in E1 as [E1 E1'].
          rewrite E1, E1', (IH Hw key2 Hk).
          symmetry in Hu. apply (upper_is t "S" Ht) in Hu. change (ascii_of_N (code "S" + 32)) with "s"%char in Hu.
          rewrite Hu. cbn. apply orb_true_r. }
        destruct key2 as [|e key3].
        { injection H as Hu Hk. subst c.
          rewrite Ascii.eqb_refl, orb_true_r, (IH Hw (String d "") Hk). reflexivity. }
        destruct ((code c =? 0xE2)%N && (code d =? 0x84)%N && (code e =? 0xAA)%N) eqn:E2.
        { injection H as Hu Hk. rewrite !andb_true_iff in E2. destruct E2 as [[E2 E2'] E2''].
          rewrite E2, E2', E2'', (IH Hw key3 Hk).
          symmetry in Hu. apply (upper_is t "K" Ht) in Hu. change (ascii_of_N (code "K" + 32)) with "k"%char in Hu.
          rewrite Hu. cbn. rewrite !orb_true_r. reflexivity. }
        injection H as Hu Hk. subst c.
        rewrite Ascii.eqb_refl, orb_true_r, (IH Hw (String d (String e key3)) Hk).
        reflexivity.
Qed.

Lemma tags_are_lower_words (f : github.field) : cases.lower_word (github.tag f) = true.
Proof. now destruct f. Qed.

Lemma find_field_spells (key : string) (f : github.field) :
  github.find_field key = Some f <-> cases.spells (github.tag f) key = true.
Proof.
  rewrite find_field_fold. split.
  - apply fold_spells, tags_are_lower_words.
  - apply spells_fold, tags_are_lower_words.
Qed.

Lemma names_spells (f : github.field) (key : string) :
  props.names f key = cases.spells (github.tag f) key.
Proof.
  unfold props.names.
  destruct (cases.spells (github.tag f) key) eqn:S.
  - apply find_field_spells in S. rewrite S. now destruct f.
  - destruct (github.find_field key) as [g|] eqn:F; [|reflexivity].
    destruct (props.field_eqb f g) eqn:E; [|reflexivity].
    assert (f = g) by (destruct f, g; try discriminate E; reflexivity). subst g.
    apply find_field_spells in F. congruence.
Qed.

Lemma absent_missing (f : github.field) (members : list (string * json.value)) :
  props.absent f members = cases.missing f members.
Proof.
  unfold props.absent, cases.missing.
  induction members as [|m rest IH]; [reflexivity|].
  cbn [forallb]. now rewrite IH, names_spells.
Qed.

Lemma known_named (members : list (string * json.value)) :
  props.known members = cases.named members.
Proof.
  unfold props.known, cases.named.
  induction members as [|m rest IH]; [reflexivity|].
  cbn [filter]. rewrite IH.
  replace (existsb (fun f => cases.spells (github.tag f) (fst m)) github.fields)
    with (match github.find_field (fst m) with Some _ => true | None => false end);
    [reflexivity|].
  unfold github.fields. cbn [existsb].
  destruct (github.find_field (fst m)) as [g|] eqn:F.
  - apply find_field_spells in F. destruct g; rewrite F; now rewrite ?orb_true_r.
  - assert (N : forall f, cases.spells (github.tag f) (fst m) = false).
    { intros f. destruct (cases.spells (github.tag f) (fst m)) eqn:S; [|reflexivity].
      apply find_field_spells in S. congruence. }
    now rewrite !N.
Qed.

(** X10: an object key is stored into a field exactly when it spells the
    name of the field up to case: each letter in lower or in upper case,
    [s] and [k] also as the long s and the Kelvin sign. A key in capitals
    or with an initial capital names the field; a key that differs in
    anything but case names none. *)
Theorem keys_are_spelled_up_to_case (key : string) (f : github.field) :
  github.find_field key = Some f <-> cases.spells (github.tag f) key = true.
Proof. apply find_field_spells. Qed.

(** C6, as the code has it: when the body is a JSON object that decodes,
    every field of the record whose name no key of the object spells up
    to case has its zero value, the empty string for login and name and 0
    for the two counts; and the members whose key spells none of the four
    names up to case are ignored: the record is the one decoded from the
    object without them, and any other object with the same members for
    the four fields decodes to the same record. *)
Theorem absent_fields_zero_other_keys_ignored
    (body : string) (members : list (string * json.value)) (u : github.GitHubUser) :
  json.readValue body = inr (json.Object members) ->
  github.Decode body github.zero = (u, None) ->
  (cases.missing github.fLogin members = true -> github.Login u = "")
  /\ (cases.missing github.fName members = true -> github.Name u = "")
  /\ (cases.missing github.fFollowers members = true -> github.Followers u = 0%Z)
  /\ (cases.missing github.fFollowing members = true -> github.Following u = 0%Z)
  /\ github.unmarshal (json.Object (cases.named members)) github.zero = (u, None)
  /\ (forall body' members',
         json.readValue body' = inr (json.Object members') ->
         cases.named members' = cases.named members ->
         github.Decode body' github.zero = (u, None)).
Proof.
  intros Hr Hd. unfold github.Decode in Hd. rewrite Hr in Hd. cbn [github.unmarshal] in Hd.
  assert (Hf : forall f, cases.missing f members = true ->
                         props.field_value f u = props.field_value f github.zero).
  { intros f Hf. rewrite <- absent_missing in Hf.
    pose proof (object_absent f members github.zero None Hf) as H.
    now rewrite Hd in H. }
  repeat split.
  - intros H. apply Hf in H. now injection H.
  - intros H. apply Hf in H. now injection H.
  - intros H. apply Hf in H. now injection H.
  - intros H. apply Hf in H. now injection H.
  - cbn [github.unmarshal]. now rewrite <- known_named, <- object_known.
  - intros body' members' Hr' Hk. unfold github.Decode. rewrite Hr'.
    cbn [github.unmarshal].
    now rewrite object_known, known_named, Hk, <- known_named, <- object_known.
Qed.

(** C6 as the specification words it fails when keys are compared byte
    for byte: in [{"LOGIN":"up"}] no key is [login], and the record has
    the login [up]; the member is no extra field to the decoder. *)
Lemma exact_key_defaults_fail : ~ cases.defaults_by_exact_key cases.capitals_body.
Proof.
  intros H.
  destruct (H [("LOGIN", json.Str "up")]
              {| github.Login := "up"; github.Name := "";
                 github.Followers := 0; github.Following := 0 |}
              eq_refl eq_refl) as [L _].
  specialize (L eq_refl). discriminate L.
Qed.

End Spelling.

(** ** The decoder: strings and integers through the scanner *)

Section Scanning.

Import json.

Lemma plain_byte_spec (c : ascii) :
  cases.plain_byte c = true ->
  (c =? Chars.dquote)%char = false /\ (c =? "\")%char = false
  /\ (Chars.code c <? 32)%N = false.
Proof.
  unfold cases.plain_byte. rewrite !andb_true_iff, !negb_true_iff.
  intros [[[H1 _] H2] H3]. repeat split; try assumption.
  apply N.ltb_ge. now apply N.leb_le.
Qed.

Lemma string_run (s : string) :
  forall (ps : list parseState) (e : option error) (fr : list frame)
         (l : string) (v : option value) (rest : string),
    cases.plain s = true ->
    readValue_from (mkScanner stateInString ps e) (mkBuilder fr (Some l) v) true (s ++ rest)
    = readValue_from (mkScanner stateInString ps e) (mkBuilder fr (Some (l ++ s)) v) true rest.
Proof.
  induction s as [|c s IH]; intros ps e fr l v rest H.
  - cbn [append]. now rewrite append_empty_r.
  - cbn [cases.plain] in H. apply andb_true_iff in H as [Hc Hs].
    apply plain_byte_spec in Hc as (H1 & H2 & H3).
    cbn [append readValue_from]. unfold scan_step. cbn [step].
    rewrite H1, H2, H3. cbn [build frames lit val option_map orb].
    rewrite IH by exact Hs. now rewrite append_assoc.
Qed.

Lemma quoted_run (st : stepFn) (s : string) (ps : list parseState) (e : option error)
    (b : builder) (rest : string) :
  st = stateBeginValue \/ st = stateBeginString \/ st = stateBeginStringOrEmpty ->
  cases.plain s = true ->
  readValue_from (mkScanner st ps e) b true (props.quoted s ++ rest)
  = readValue_from (mkScanner stateEndValue ps e)
      (mkBuilder (frames b) (Some (props.quoted s)) None) true rest.
Proof.
  intros Hst Hs. unfold props.quoted. cbn [append]. rewrite append_assoc. cbn [append].
  assert (Step : readValue_from (mkScanner st ps e) b true
                   (String Chars.dquote (s ++ String Chars.dquote rest))
                 = readValue_from (mkScanner stateInString ps e)
                     (mkBuilder (frames b) (Some (String Chars.dquote "")) None) true
                     (s ++ String Chars.dquote rest)).
  { destruct Hst as [-> | [-> | ->]]; reflexivity. }
  rewrite Step, string_run by exact Hs.
  cbn [append readValue_from]. reflexivity.
Qed.

Lemma digits_run (d : Decimal.uint) :
  forall (ps : list parseState) (e : option error) (fr : list frame)
         (l : string) (v : option value) (rest : string),
    readValue_from (mkScanner state1 ps e) (mkBuilder fr (Some l) v) true
      (NilEmpty.string_of_uint d ++ rest)
    = readValue_from (mkScanner state1 ps e)
        (mkBuilder fr (Some (l ++ NilEmpty.string_of_uint d)) v) true rest.
Proof.
  induction d; intros ps e fr l v rest; cbn [NilEmpty.string_of_uint append];
    [now rewrite append_empty_r|..];
    (etransitivity; [|etransitivity; [apply IHd|]]; [reflexivity|];
     now rewrite append_assoc).
Qed.

Lemma to_uint_head (p : positive) (l : Decimal.uint) : Pos.to_uint p <> Decimal.D0 l.
Proof.
  intros E.
  assert (U : Decimal.unorm (Pos.to_uint p) = Pos.to_uint p).
  { rewrite <- (DecimalPos.Unsigned.to_of (Pos.to_uint p)).
    now rewrite DecimalPos.Unsigned.of_to. }
  rewrite E in U. unfold Decimal.unorm in U.
  destruct (Decimal.nzhead (Decimal.D0 l)) eqn:Hn; try discriminate U.
  - injection U as <-. now apply (DecimalPos.Unsigned.to_uint_nonzero p).
  - now apply DecimalFacts.nzhead_nonzero in Hn.
Qed.

(** A positive number from the beginning of a value. *)
Lemma positive_run (p : positive) (ps : list parseState) (e : option error)
    (b : builder) (rest : string) :
  readValue_from (mkScanner stateBeginValue ps e) b true
    (NilEmpty.string_of_uint (Pos.to_uint p) ++ rest)
  = readValue_from (mkScanner state1 ps e)
      (mkBuilder (frames b) (Some (NilEmpty.string_of_uint (Pos.to_uint p))) None) true rest.
Proof.
  pose proof (DecimalPos.Unsigned.to_uint_nonnil p) as Hnil.
  pose proof (to_uint_head p) as Hhead.
  destruct (Pos.to_uint p) as [|l|l|l|l|l|l|l|l|l|l];
    [congruence | now elim (Hhead l) | ..];
    cbn [NilEmpty.string_of_uint append];
    match goal with
    | |- _ = readValue_from _ (mkBuilder _ (Some (String ?c _)) _) _ _ =>
        etransitivity;
        [|exact (digits_run l ps e (frames b) (String c "") None rest)]; reflexivity
    end.
Qed.

Lemma negative_run (p : positive) (ps : list parseState) (e : option error)
    (b : builder) (rest : string) :
  readValue_from (mkScanner stateBeginValue ps e) b true
    (String "-" (NilEmpty.string_of_uint (Pos.to_uint p)) ++ rest)
  = readValue_from (mkScanner state1 ps e)
      (mkBuilder (frames b) (Some (String "-" (NilEmpty.string_of_uint (Pos.to_uint p))))
         None) true rest.
Proof.
  pose proof (DecimalPos.Unsigned.to_uint_nonnil p) as Hnil.
  pose proof (to_uint_head p) as Hhead.
  destruct (Pos.to_uint p) as [|l|l|l|l|l|l|l|l|l|l];
    [congruence | now elim (Hhead l) | ..];
    cbn [NilEmpty.string_of_uint append];
    match goal with
    | |- _ = readValue_from _ (mkBuilder _ (Some (String _ (String ?c _))) _) _ _ =>
        etransitivity;
        [|exact (digits_run l ps e (frames b) (String "-" (String c "")) None rest)];
        reflexivity
    end.
Qed.

Lemma digits_value_acc (d : Decimal.uint) :
  forall acc : positive,
    json.digits_value (Zpos acc) (NilEmpty.string_of_uint d)
    = Some (Zpos (Pos.of_uint_acc d acc)).
Proof.
  induction d; intros acc; cbn [NilEmpty.string_of_uint json.digits_value Pos.of_uint_acc];
    [reflexivity|..];
    (change (Chars.isDigit _) with true; cbv iota;
     match goal with
     | |- json.digits_value (_ + ?k)%Z _ = _ =>
         let v := eval vm_compute in k in change k with v
     end;
     match goal with
     | |- json.digits_value ?a _ = Some (Zpos (Pos.of_uint_acc _ ?b)) =>
         replace a with (Zpos b) by lia
     end; apply IHd).
Qed.

Lemma digits_value_of_uint (d : Decimal.uint) :
  json.digits_value 0 (NilEmpty.string_of_uint d) = Some (Z.of_N (Pos.of_uint d)).
Proof.
  induction d; cbn [NilEmpty.string_of_uint json.digits_value Pos.of_uint];
    [reflexivity|..];
    change (Chars.isDigit _) with true; cbv iota;
    try exact IHd;
    match goal with
    | |- json.digits_value ?a _ = _ =>
        let v := eval vm_compute in a in change a with v
    end; apply digits_value_acc.
Qed.

Lemma ParseInt_unsigned (d : Decimal.uint) :
  d <> Decimal.Nil ->
  json.ParseInt (NilEmpty.string_of_uint d)
  = (if cases.int64 (Z.of_N (Pos.of_uint d)) then Some (Z.of_N (Pos.of_uint d)) else None).
Proof.
  intros Hd. pose proof (digits_value_of_uint d) as V.
  destruct d; [congruence|..];
    unfold json.ParseInt; cbn [NilEmpty.string_of_uint] in *;
    (change (Ascii.eqb _ "-") with false; change (Ascii.eqb _ "+") with false;
     cbv iota; rewrite V; reflexivity).
Qed.

Lemma ParseInt_negative (d : Decimal.uint) :
  d <> Decimal.Nil ->
  json.ParseInt (String "-" (NilEmpty.string_of_uint d))
  = (if cases.int64 (- Z.of_N (Pos.of_uint d)) then Some (- Z.of_N (Pos.of_uint d))%Z
     else None).
Proof.
  intros Hd. pose proof (digits_value_of_uint d) as V.
  unfold json.ParseInt. change (Ascii.eqb "-" "-") with true. cbv iota.
  destruct d; [congruence|..]; cbn [NilEmpty.string_of_uint] in *; rewrite V; reflexivity.
Qed.

Lemma Itoa_pos (p : positive) :
  fmt.Itoa (Zpos p) = NilEmpty.string_of_uint (Pos.to_uint p).
Proof.
  unfold fmt.Itoa. cbn [Z.to_int NilZero.string_of_int NilZero.string_of_uint].
  pose proof (DecimalPos.Unsigned.to_uint_nonnil p).
  now destruct (Pos.to_uint p).
Qed.

Lemma Itoa_neg (p : positive) :
  fmt.Itoa (Zneg p) = String "-" (NilEmpty.string_of_uint (Pos.to_uint p)).
Proof.
  unfold fmt.Itoa. cbn [Z.to_int NilZero.string_of_int NilZero.string_of_uint].
  pose proof (DecimalPos.Unsigned.to_uint_nonnil p).
  now destruct (Pos.to_uint p).
Qed.

Lemma ParseInt_Itoa (n : Z) :
  json.ParseInt (fmt.Itoa n) = if cases.int64 n then Some n else None.
Proof.
  destruct n as [|p|p].
  - reflexivity.
  - rewrite Itoa_pos, ParseInt_unsigned by apply DecimalPos.Unsigned.to_uint_nonnil.
    now rewrite DecimalPos.Unsigned.of_to.
  - rewrite Itoa_neg, ParseInt_negative by apply DecimalPos.Unsigned.to_uint_nonnil.
    now rewrite DecimalPos.Unsigned.of_to.
Qed.


Lemma end_of_number (st : stepFn) (c : ascii) (ps : list parseState) (e : option error)
    (b : builder) (rest : string) :
  st = state0 \/ st = state1 ->
  c = ","%char \/ c = "}"%char ->
  readValue_from (mkScanner st ps e) b true (String c rest)
  = readValue_from (mkScanner stateEndValue ps e) b true (String c rest).
Proof.
  intros Hst Hc. cbn [readValue_from].
  replace (scan_step (mkScanner st ps e) c)
    with (scan_step (mkScanner stateEndValue ps e) c); [reflexivity|].
  destruct Hst as [-> | ->], Hc as [-> | ->], ps as [|[] below]; reflexivity.
Qed.

Lemma number_run (n : Z) (c : ascii) (ps : list parseState) (e : option error)
    (b : builder) (rest : string) :
  c = ","%char \/ c = "}"%char ->
  readValue_from (mkScanner stateBeginValue ps e) b true (fmt.Itoa n ++ String c rest)
  = readValue_from (mkScanner stateEndValue ps e)
      (mkBuilder (frames b) (Some (fmt.Itoa n)) None) true (String c rest).
Proof.
  intros Hc. destruct n as [|p|p].
  - rewrite <- (end_of_number state0) by (auto; now left). reflexivity.
  - rewrite Itoa_pos, positive_run. apply end_of_number; auto.
  - rewrite Itoa_neg, negative_run. apply end_of_number; auto.
Qed.

Lemma unquote_plain (s : string) : cases.plain s = true -> unquote_from 0 s = s.
Proof.
  induction s as [|c s IH]; intros H; [reflexivity|].
  cbn [cases.plain] in H. apply andb_true_iff in H as [Hc Hs].
  pose proof (plain_byte_spec c Hc) as (_ & H2 & _).
  unfold cases.plain_byte in Hc. rewrite !andb_true_iff in Hc.
  destruct Hc as [[[_ Hle] _] _]. apply N.leb_le in Hle.
  cbn [unquote_from]. rewrite H2.
  assert (Hlt : (Chars.code c <? 128)%N = true) by (apply N.ltb_lt; lia).
  rewrite Hlt. now rewrite IH.
Qed.

Lemma drop_last_snoc (s : string) (c : ascii) : drop_last (s ++ String c "") = s.
Proof.
  induction s as [|a s IH]; [reflexivity|].
  cbn [append drop_last]. rewrite IH. now destruct s.
Qed.

Lemma literal_value_quoted (s : string) :
  cases.plain s = true -> literal_value (props.quoted s) = Str s.
Proof.
  intros H. unfold props.quoted, literal_value, unquote.
  change (Ascii.eqb Chars.dquote "n") with false.
  change (Ascii.eqb Chars.dquote "t") with false.
  change (Ascii.eqb Chars.dquote "f") with false.
  change (Ascii.eqb Chars.dquote Chars.dquote) with true. cbv iota.
  now rewrite drop_last_snoc, unquote_plain.
Qed.

Lemma literal_value_Itoa (n : Z) : literal_value (fmt.Itoa n) = Number (fmt.Itoa n).
Proof.
  destruct n as [|p|p]; [reflexivity | rewrite Itoa_pos | rewrite Itoa_neg; reflexivity].
  pose proof (DecimalPos.Unsigned.to_uint_nonnil p) as Hnil.
  destruct (Pos.to_uint p); [congruence|..]; reflexivity.
Qed.

Lemma readValue_from_step (s s' : scanner) (b : builder) (seen : bool) (c : ascii)
    (op : opcode) (rest : string) :
  scan_step s c = (s', op) ->
  match op with
  | scanEnd | scanEndObject | scanEndArray | scanError => False
  | _ => True
  end ->
  readValue_from s b seen (String c rest)
  = readValue_from s' (build b c op) (seen || negb (isSpace c)) rest.
Proof.
  intros Hs Hop. cbn [readValue_from]. rewrite Hs. now destruct op.
Qed.

Ltac one_byte :=
  erewrite readValue_from_step by (first [vm_compute; reflexivity | exact I]);
  cbn [build end_literal frames lit val add_member add_elem option_map orb];
  rewrite ?literal_value_quoted by (assumption || reflexivity);
  rewrite ?literal_value_Itoa;
  cbn [build end_literal frames lit val add_member add_elem option_map orb app].

Lemma readValue_profile_body (u : github.GitHubUser) :
  cases.plain (github.Login u) = true ->
  cases.plain (github.Name u) = true ->
  readValue (cases.profile_body u)
  = inr (Object [("login", Str (github.Login u)); ("name", Str (github.Name u));
                 ("followers", Number (fmt.Itoa (github.Followers u)));
                 ("following", Number (fmt.Itoa (github.Following u)))]).
Proof.
  intros Hl Hn. unfold readValue, cases.profile_body.
  cbn [append].
  one_byte. change (negb (isSpace "{")) with true.
  rewrite quoted_run by (auto; reflexivity). one_byte.
  rewrite quoted_run by auto. one_byte.
  rewrite quoted_run by (auto; reflexivity). one_byte.
  rewrite quoted_run by auto. one_byte.
  rewrite quoted_run by (auto; reflexivity). one_byte.
  rewrite number_run by auto. one_byte.
  rewrite quoted_run by (auto; reflexivity). one_byte.
  rewrite number_run by auto.
  cbn [readValue_from].
  change (scan_step _ "}") with (mkScanner stateEndTop [] None, scanEndObject).
  cbv iota beta.
  change (is_scanEnd _) with true. cbv iota.
  unfold finished.
  cbn [build end_literal frames lit val add_member empty_builder].
  rewrite literal_value_Itoa. reflexivity.
Qed.

Lemma Decode_profile_body (u : github.GitHubUser) :
  cases.plain (github.Login u) = true ->
  cases.plain (github.Name u) = true ->
  github.Decode (cases.profile_body u) github.zero
  = (if cases.int64 (github.Followers u)
     then if cases.int64 (github.Following u) then (u, None)
          else ({| github.Login := github.Login u; github.Name := github.Name u;
                   github.Followers := github.Followers u; github.Following := 0 |},
                Some (UnmarshalTypeError ("number " ++ fmt.Itoa (github.Following u))
                        "GitHubUser" "following" "int"))
     else ({| github.Login := github.Login u; github.Name := github.Name u;
              github.Followers := 0;
              github.Following := if cases.int64 (github.Following u)
                                  then github.Following u else 0 |},
           Some (UnmarshalTypeError ("number " ++ fmt.Itoa (github.Followers u))
                   "GitHubUser" "followers" "int"))).
Proof.
  intros Hl Hn. unfold github.Decode. rewrite readValue_profile_body by assumption.
  cbn [github.unmarshal github.object].
  change (github.find_field "login") with (Some github.fLogin).
  change (github.find_field "name") with (Some github.fName).
  change (github.find_field "followers") with (Some github.fFollowers).
  change (github.find_field "following") with (Some github.fFollowing).
  cbn [github.store store_string store_int github.tag saveError
       github.Login github.Name github.Followers github.Following github.zero].
  rewrite !ParseInt_Itoa. destruct u as [l n f g].
  cbn [github.Login github.Name github.Followers github.Following].
  destruct (cases.int64 f), (cases.int64 g); reflexivity.
Qed.
End Scanning.

(** ** A dropped error, and the round trip of a profile *)

Section ProfileBodies.

Import proc.

(** X6: [Run] drops the error of the flag lookup. With the flags [init]
    declares the lookup never fails, whatever the command line gives;
    with a flag set that declares no user flag, [Run] reports a missing
    user and ends the process with code 1, as for an empty user. *)
Theorem flag_lookup_error_is_dropped :
  (forall user : option string,
      snd (pflag.GetString "user"
             match user with
             | Some v => pflag.Set_ "user" v (cobra.PersistentFlags cmd.rootCmd)
             | None => cobra.PersistentFlags cmd.rootCmd
             end) = None)
  /\ (forall flags args w,
         pflag.Lookup "user" flags = None ->
         cmd.Run flags args w
         = (Exit 1, with_trace w (trace w ++ [Stdout props.missing_user]))).
Proof.
  split; [intros [v|]; reflexivity|].
  intros flags args w H. apply Run_without_user. unfold pflag.GetString. now rewrite H.
Qed.

(** X13: round trip. For every profile whose login and name are plain
    text and whose counts fit an [int], the body
    [{"login":L,"name":N,"followers":F,"following":G}] decodes to that
    profile, and the lookup prints its four lines. *)
Theorem profile_round_trip (u : github.GitHubUser) :
  cases.plain (github.Login u) = true ->
  cases.plain (github.Name u) = true ->
  cases.int64 (github.Followers u) = true ->
  cases.int64 (github.Following u) = true ->
  github.Decode (cases.profile_body u) github.zero = (u, None)
  /\ (forall user w code,
         props.answer w user = Response code (cases.profile_body u) ->
         stdout (trace (snd (github.GetUser user w)))
         = stdout (trace w) ++ props.profile_text u).
Proof.
  intros Hl Hn Hf Hg.
  assert (D : github.Decode (cases.profile_body u) github.zero = (u, None)).
  { rewrite Decode_profile_body by assumption. now rewrite Hf, Hg. }
  split; [exact D|].
  intros user w code Hr. rewrite GetUser_run, Hr. cbn [snd with_trace trace].
  rewrite stdout_app, stdout_effects. unfold props.output. now rewrite D.
Qed.

(** X14: a follower count outside the range of [int] is a decode error
    that names the number and the field, and the lookup prints the error
    instead of a profile. *)
Theorem count_outside_int64_is_an_error (u : github.GitHubUser) :
  cases.plain (github.Login u) = true ->
  cases.plain (github.Name u) = true ->
  cases.int64 (github.Followers u) = false ->
  snd (github.Decode (cases.profile_body u) github.zero)
  = Some (json.UnmarshalTypeError ("number " ++ fmt.Itoa (github.Followers u))
            "GitHubUser" "followers" "int")
  /\ (forall user w code,
         props.answer w user = Response code (cases.profile_body u) ->
         stdout (trace (snd (github.GetUser user w)))
         = stdout (trace w)
           ++ "Erro ao decodificar resposta: json: cannot unmarshal number "
           ++ fmt.Itoa (github.Followers u)
           ++ " into Go struct field GitHubUser.followers of type int" ++ Chars.nl).
Proof.
  intros Hl Hn Hf.
  pose proof (Decode_profile_body u Hl Hn) as D. rewrite Hf in D.
  split; [now rewrite D|].
  intros user w code Hr. rewrite GetUser_run, Hr. cbn [snd with_trace trace].
  rewrite stdout_app, stdout_effects. unfold props.output. rewrite D.
  cbn [json.Error]. cbn [String.eqb negb orb]. now rewrite !append_assoc.
Qed.

End ProfileBodies.

(** ** These statements at concrete inputs *)

Section MoreInstances.

Import proc.

(** A response without name and following, with an id; and one whose
    keys are in capitals. *)
Lemma absent_fields_zero_other_keys_ignored_witness :
  json.readValue props.octocat_body
  = inr (json.Object [("login", json.Str "octocat"); ("id", json.Number "583231");
                      ("followers", json.Number "7")])
  /\ github.Decode props.octocat_body github.zero
     = ({| github.Login := "octocat"; github.Name := "";
           github.Followers := 7; github.Following := 0 |}, None)
  /\ cases.missing github.fName
       [("login", json.Str "octocat"); ("id", json.Number "583231");
        ("followers", json.Number "7")] = true
  /\ github.Name {| github.Login := "octocat"; github.Name := "";
                    github.Followers := 7; github.Following := 0 |} = ""
  /\ github.unmarshal
       (json.Object [("login", json.Str "octocat"); ("followers", json.Number "7")])
       github.zero
     = ({| github.Login := "octocat"; github.Name := "";
           github.Followers := 7; github.Following := 0 |}, None).
Proof.
  split; [reflexivity|]. split; [reflexivity|]. split; [reflexivity|].
  pose proof (absent_fields_zero_other_keys_ignored props.octocat_body
                [("login", json.Str "octocat"); ("id", json.Number "583231");
                 ("followers", json.Number "7")]
                {| github.Login := "octocat"; github.Name := "";
                   github.Followers := 7; github.Following := 0 |}
                eq_refl eq_refl) as (_ & N & _ & _ & K & _).
  split; [exact (N eq_refl) | exact K].
Defined.

(** A flag set with no flag at all. *)
Lemma flag_lookup_error_is_dropped_witness :
  pflag.Lookup "user" [] = None
  /\ cmd.Run [] [] props.offline
     = (Exit 1, with_trace props.offline
                  (trace props.offline ++ [Stdout props.missing_user])).
Proof.
  split; [reflexivity|].
  exact (proj2 flag_lookup_error_is_dropped [] [] props.offline eq_refl).
Defined.

(** GitHub's answer for a user that does not exist. *)
Lemma status_code_is_ignored_witness :
  props.answer cases.not_found "nobody" = Response 404 cases.not_found_body
  /\ json.readValue cases.not_found_body
     = inr (json.Object [("message", json.Str "Not Found"); ("status", json.Str "404")])
  /\ props.known [("message", json.Str "Not Found"); ("status", json.Str "404")] = []
  /\ stdout (trace (snd (github.GetUser "nobody" cases.not_found)))
     = stdout (trace cases.not_found) ++ cases.empty_profile.
Proof.
  split; [reflexivity|]. split; [reflexivity|]. split; [reflexivity|].
  exact (proj2 (status_code_is_ignored "nobody" cases.not_found 404%Z
                  cases.not_found_body eq_refl)
           [("message", json.Str "Not Found"); ("status", json.Str "404")]
           eq_refl eq_refl).
Defined.

(** The body with a login, an id and a follower count. *)
Lemma decode_succeeds_iff_well_typed_witness :
  json.readValue props.octocat_body
  = inr (json.Object [("login", json.Str "octocat"); ("id", json.Number "583231");
                      ("followers", json.Number "7")])
  /\ (snd (github.Decode props.octocat_body github.zero) = None
      <-> cases.acceptable
            (json.Object [("login", json.Str "octocat"); ("id", json.Number "583231");
                          ("followers", json.Number "7")]) = true).
Proof.
  split; [reflexivity|].
  exact (decode_succeeds_iff_well_typed props.octocat_body _ eq_refl).
Defined.

(** Three members for the login: a string, a string, [null]. *)
Lemma last_member_of_a_field_wins_witness :
  json.readValue cases.thrice_body
  = inr (json.Object ([("login", json.Str "a")]
                      ++ ("Login", json.Str "b") :: [("login", json.Null)]))
  /\ github.find_field "Login" = Some github.fLogin
  /\ cases.stored github.fLogin (json.Str "b") = Some (inl "b")
  /\ props.field_value github.fLogin (fst (github.Decode cases.thrice_body github.zero))
     = inl "b".
Proof.
  split; [reflexivity|]. split; [reflexivity|]. split; [reflexivity|].
  exact (last_member_of_a_field_wins cases.thrice_body [("login", json.Str "a")]
           [("login", json.Null)] "Login" (json.Str "b") github.fLogin (inl "b")
           eq_refl eq_refl eq_refl eq_refl).
Defined.

(** A space and a newline before the stub response of user facebook. *)
Lemma leading_space_is_skipped_witness :
  cases.blank (String " " Chars.nl) = true
  /\ github.Decode (String " " Chars.nl ++ props.facebook_body) github.zero
     = github.Decode props.facebook_body github.zero.
Proof.
  split; [reflexivity|].
  exact (leading_space_is_skipped (String " " Chars.nl) props.facebook_body eq_refl).
Defined.

(** A response with nothing in its body. *)
Lemma blank_body_is_EOF_witness :
  props.answer (props.stub "") "octocat" = Response 200 ""
  /\ cases.blank "" = true
  /\ github.Decode "" github.zero = (github.zero, Some json.io_EOF).
Proof.
  split; [reflexivity|]. split; [reflexivity|].
  exact (proj1 (blank_body_is_EOF "octocat" (props.stub "") 200%Z "" eq_refl eq_refl)).
Defined.

(** The profile of user facebook. *)
Lemma profile_round_trip_witness :
  cases.plain "facebook" = true /\ cases.plain "Facebook" = true
  /\ cases.int64 0 = true
  /\ github.Decode (cases.profile_body props.facebook) github.zero
     = (props.facebook, None).
Proof.
  split; [reflexivity|]. split; [reflexivity|]. split; [reflexivity|].
  exact (proj1 (profile_round_trip props.facebook eq_refl eq_refl eq_refl eq_refl)).
Defined.

(** 2^63 followers. *)
Lemma count_outside_int64_is_an_error_witness :
  cases.plain "octocat" = true /\ cases.plain "The Octocat" = true
  /\ cases.int64 (2 ^ 63) = false
  /\ snd (github.Decode (cases.profile_body cases.crowded) github.zero)
     = Some (json.UnmarshalTypeError "number 9223372036854775808"
               "GitHubUser" "followers" "int").
Proof.
  split; [reflexivity|]. split; [reflexivity|]. split; [reflexivity|].
  exact (proj1 (count_outside_int64_is_an_error cases.crowded eq_refl eq_refl eq_refl)).
Defined.

End MoreInstances.
